(** * Vote derivation, vote mutation and flag authorisation of the
      annotation action bar

    The repository carries two versions of the [AnnotationActionBar]
    component.  [src/sidebar/components/Annotation/AnnotationActionBar.tsx]
    stores a vote as a tag [vote:{like|dislike}:{userid}:{timestamp}] on the
    annotation itself (module [Inline] below); the second version stores a
    vote as a reply annotation that carries a [vote:like] or [vote:dislike]
    tag (module [Reply]).  Both share [flaggingEnabled] and [showFlagAction]
    (module [ActionBar]).

    The component bodies are embedded as functions of the props and of the
    store snapshot they read.  Event handlers are embedded in a small
    trace-and-exception monad whose trace lists the calls made on the
    external collaborators (store, annotations service, toast messenger). *)

From Stdlib Require Import List String Ascii Bool Arith NArith ZArith Lia.
From Stdlib Require Import DecimalString.
Import ListNotations.

Local Open Scope list_scope.
Local Open Scope string_scope.

(** ** JavaScript primitives used by the components *)

Module Js.

(** The values a JSON configuration entry can hold. *)
Inductive Value : Type :=
| Undefined
| Null
| Boolean (b : bool)
| Number (n : Z)
| Str (s : string).

(** [v === false]. *)
Definition isExactlyFalse (v : Value) : bool :=
  match v with
  | Boolean false => true
  | _ => false
  end.

(** [t.startsWith(p)]. *)
Definition startsWith (t p : string) : bool := String.prefix p t.

(** [!!s] for a value of type [string | null | undefined]: the empty
    string is falsy as well. *)
Definition truthy (s : option string) : bool :=
  match s with
  | Some s => negb (s =? "")
  | None => false
  end.

(** A [string | null] value interpolated in a template literal. *)
Definition template (s : option string) : string :=
  match s with
  | Some s => s
  | None => "null"
  end.

(** A non-negative integer interpolated in a template literal. *)
Definition numberToString (n : N) : string :=
  NilZero.string_of_uint (N.to_uint n).

(** [a === b] where [a : string | null] and [b : string]. *)
Definition strictEq (a : option string) (b : string) : bool :=
  match a with
  | Some a => a =? b
  | None => false
  end.

(** [l.includes(s)]. *)
Definition includes (l : list string) (s : string) : bool :=
  existsb (fun t => t =? s) l.

(** [l.filter(p).length]. *)
Definition countIf {A : Type} (p : A -> bool) (l : list A) : nat :=
  List.length (filter p l).

End Js.

(** ** Data model *)

Inductive VoteType : Type := Like | Dislike.

(** The text of a vote type inside a template literal. *)
Definition typeName (type : VoteType) : string :=
  match type with
  | Like => "like"
  | Dislike => "dislike"
  end.

(** The viewer's vote as the specification's [VoteState] reports it. *)
Inductive ViewerVote : Type := VoteLike | VoteDislike | VoteNone.

Definition voteOf (type : VoteType) : ViewerVote :=
  match type with
  | Like => VoteLike
  | Dislike => VoteDislike
  end.

Record Permissions : Type := mkPermissions {
  perm_read : list string;
  perm_update : list string;
  perm_delete : list string
}.

Record Target : Type := mkTarget {
  source : option string
}.

(** The fields of an annotation the action bar reads.  [tags] and
    [references] may be missing, which the components guard with
    [|| []] and [?.]. *)
Record Annotation : Type := mkAnnotation {
  id : string;
  user : string;
  tags : option (list string);
  references : option (list string);
  group : string;
  uri : string;
  target : list Target;
  text : string;
  permissions : Permissions;
  flagged : bool
}.

(** [{ ...annotation, tags: newTags }]. *)
Definition withTags (a : Annotation) (newTags : list string) : Annotation :=
  {| id := id a; user := user a; tags := Some newTags;
     references := references a; group := group a; uri := uri a;
     target := target a; text := text a; permissions := permissions a;
     flagged := flagged a |}.

(** The object literal handed to [annotationsService.annotationFromData]. *)
Record AnnotationData : Type := mkAnnotationData {
  data_references : list string;
  data_group : string;
  data_uri : string;
  data_target : list Target;
  data_text : string;
  data_tags : list string;
  data_permissions : Permissions
}.

(** The snapshot of the sidebar store a render reads.  [allAnnotations]
    and [annotations] are store methods that may be absent
    ([typeof ... === 'function']); when present they return the loaded
    annotations. *)
Record Store : Type := mkStore {
  profile_userid : option string;
  isLoggedIn : bool;
  allAnnotations : option (list Annotation);
  annotations : option (list Annotation)
}.

(** The service entry of the settings, as far as the action bar reads it. *)
Record Service : Type := mkService {
  allowFlagging : Js.Value
}.

(** ** Calls on the collaborators, and the handler monad *)

Inductive Effect : Type :=
| OpenSidebarPanel (panel : string)
| Save (a : Annotation)
| Delete (a : Annotation)
| ToastError (message : string).

(** How an awaited service call ends: the promise resolves, or rejects with
    an error whose [message] may be missing. *)
Inductive ServiceResult : Type :=
| Resolved
| Rejected (message : option string).

Inductive Outcome (A : Type) : Type :=
| Returned (a : A)
| Threw (message : option string).

Arguments Returned {A} a.
Arguments Threw {A} message.

(** A handler run: the calls it made, in order, and how it ended. *)
Definition Handler (A : Type) : Type := (list Effect * Outcome A)%type.

Definition ret {A : Type} (a : A) : Handler A := ([], Returned a).

Definition bind {A B : Type} (m : Handler A) (k : A -> Handler B)
  : Handler B :=
  match m with
  | (tr, Returned a) => let (tr', r) := k a in ((tr ++ tr')%list, r)
  | (tr, Threw e) => (tr, Threw e)
  end.

(** A call that cannot fail from the handler's point of view. *)
Definition emit (e : Effect) : Handler unit := ([e], Returned tt).

(** [await] of a service call that ends as [r]. *)
Definition await (e : Effect) (r : ServiceResult) : Handler unit :=
  ([e], match r with
        | Resolved => Returned tt
        | Rejected message => Threw message
        end).

(** [try { m } catch (err) { handler(err) }]. *)
Definition tryCatch {A : Type} (m : Handler A)
    (handler : option string -> Handler A) : Handler A :=
  match m with
  | (tr, Threw e) => let (tr', r) := handler e in ((tr ++ tr')%list, r)
  | done => done
  end.

Notation "m1 ;; m2" := (bind m1 (fun _ => m2))
  (at level 61, right associativity).

Definition trace {A : Type} (m : Handler A) : list Effect := fst m.

(** The annotations a run handed to [annotationsService.save]. *)
Fixpoint saves (tr : list Effect) : list Annotation :=
  match tr with
  | [] => []
  | Save a :: tr => a :: saves tr
  | _ :: tr => saves tr
  end.

(** The annotations a run handed to [annotationsService.delete]. *)
Fixpoint deletes (tr : list Effect) : list Annotation :=
  match tr with
  | [] => []
  | Delete a :: tr => a :: deletes tr
  | _ :: tr => deletes tr
  end.


(** The store snapshot once annotation [a] has been added to the loaded
    annotations. *)
Definition withLoaded (store : Store) (a : Annotation) : Store :=
  {| profile_userid := profile_userid store;
     isLoggedIn := isLoggedIn store;
     allAnnotations :=
       Some (match allAnnotations store with
             | Some l => l
             | None =>
                 match annotations store with
                 | Some l => l
                 | None => []
                 end
             end ++ [a])%list;
     annotations := annotations store |}.

(** ** Code shared by the two versions of the component *)

Module ActionBar.
Section WithSettings.

(** [SidebarSettings] and [serviceConfig] live in modules that the
    component imports ([types/config], [config/service-config]); they are
    taken as parameters. *)
Variable SidebarSettings : Type.
Variable serviceConfig : SidebarSettings -> option Service.

(** [service?.allowFlagging === false] is false when there is no
    service. *)
Definition flaggingEnabled (settings : SidebarSettings) : bool :=
  let service := serviceConfig settings in
  if match service with
     | Some service => Js.isExactlyFalse (allowFlagging service)
     | None => false
     end
  then false
  else true.

(** Only authenticated users can flag an annotation, except the
    annotation's author. *)
Definition showFlagAction (settings : SidebarSettings) (store : Store)
    (annotation : Annotation) : bool :=
  flaggingEnabled settings
  && Js.truthy (profile_userid store)
  && negb (Js.strictEq (profile_userid store) (user annotation)).

End WithSettings.
End ActionBar.

(** ** Inline scheme: votes as tags of the annotation
    ([src/sidebar/components/Annotation/AnnotationActionBar.tsx]) *)

Module Inline.

Definition likePrefix : string := "vote:like:".
Definition dislikePrefix : string := "vote:dislike:".

Section Render.

(** One render of the component: the annotation prop and the store
    snapshot. *)
Variable annotation : Annotation.
Variable store : Store.

(** [annotation.tags || []]. *)
Definition tags : list string :=
  match tags annotation with
  | Some l => l
  | None => []
  end.

Definition userId : option string := profile_userid store.

Definition userLikeTag : option string :=
  find (fun t => Js.startsWith t (likePrefix ++ Js.template userId)) tags.

Definition userDislikeTag : option string :=
  find (fun t => Js.startsWith t (dislikePrefix ++ Js.template userId))
       tags.

Definition likeCount : nat :=
  Js.countIf (fun t => Js.startsWith t likePrefix) tags.

Definition dislikeCount : nat :=
  Js.countIf (fun t => Js.startsWith t dislikePrefix) tags.

(** The [viewerVote] field of the specification's [VoteState], read off
    the two lookups that drive the [pressed] state of the buttons; a
    like tag takes precedence when both are found. *)
Definition viewerVote : ViewerVote :=
  if Js.truthy userLikeTag then VoteLike
  else if Js.truthy userDislikeTag then VoteDislike
  else VoteNone.

(** The clock ([Date.now()], in milliseconds) and the way the awaited
    save ends are inputs of a click. *)
Variable now : N.
Variable saveResult : Annotation -> ServiceResult.

Definition otherType (type : VoteType) : VoteType :=
  match type with
  | Like => Dislike
  | Dislike => Like
  end.

(** [Math.floor(Date.now() / 1000)]. *)
Definition timestamp : N := (now / 1000)%N.

(** The local [newTags] of [handleVote] when the save is issued. *)
Definition newTags (type : VoteType) : list string :=
  let newTags :=
    filter
      (fun t =>
         negb (Js.startsWith t
                 ("vote:" ++ typeName type ++ ":" ++ Js.template userId))
         && negb (Js.startsWith t
                    ("vote:" ++ typeName (otherType type) ++ ":"
                             ++ Js.template userId)))
      tags in
  (* Toggle: if already voted same type, remove; else add new *)
  let alreadyVotedSameType :=
    match type with
    | Like => Js.truthy userLikeTag
    | Dislike => Js.truthy userDislikeTag
    end in
  if negb alreadyVotedSameType then
    (newTags
       ++ [("vote:" ++ typeName type ++ ":" ++ Js.template userId ++ ":"
                    ++ Js.numberToString timestamp)%string])%list
  else newTags.

Definition handleVote (type : VoteType) : Handler unit :=
  if negb (isLoggedIn store) then
    emit (OpenSidebarPanel "loginPrompt")
  else
    let saved := withTags annotation (newTags type) in
    tryCatch
      (await (Save saved) (saveResult saved))
      (fun _ =>
         emit (ToastError ("Failed to " ++ typeName type ++ " annotation"))).

End Render.

(** The next render after a save: the same viewer looks at the annotation
    that was handed to [save]. *)
Definition rerender (annotation : Annotation) (store : Store)
    (now : N) (type : VoteType) : Annotation :=
  withTags annotation (newTags annotation store now type).

(** The vote marker of viewer [uid], in the form the specification gives
    it: [vote:{like|dislike}:{uid}:{timestamp}]. *)
Definition isVoteMarkerOf (uid : string) (t : string) : bool :=
  Js.startsWith t ("vote:like:" ++ uid ++ ":")
  || Js.startsWith t ("vote:dislike:" ++ uid ++ ":").

(** The tags [handleVote] drops for viewer [uid]: every tag that starts
    with [vote:like:{uid}] or [vote:dislike:{uid}]. *)
Definition matchesViewer (uid : string) (t : string) : bool :=
  Js.startsWith t ("vote:like:" ++ uid)
  || Js.startsWith t ("vote:dislike:" ++ uid).

(** Whether a tag matches a vote marker at all. *)
Definition isVoteMarker (t : string) : bool :=
  Js.startsWith t likePrefix || Js.startsWith t dislikePrefix.

(** The tag [vote:{type}:{uid}:{ts}]. *)
Definition markerFor (type : VoteType) (uid ts : string) : string :=
  "vote:" ++ typeName type ++ ":" ++ uid ++ ":" ++ ts.

(** The count the specification's [VoteState] reports for [type]. *)
Definition tally (type : VoteType) (annotation : Annotation) : nat :=
  match type with
  | Like => likeCount annotation
  | Dislike => dislikeCount annotation
  end.

(** The local [alreadyVotedSameType] of [handleVote], on its own. *)
Definition alreadyVotedSameType (annotation : Annotation) (store : Store)
    (type : VoteType) : bool :=
  match type with
  | Like => Js.truthy (userLikeTag annotation store)
  | Dislike => Js.truthy (userDislikeTag annotation store)
  end.

(** The prefix [vote:{type}:{uid}] that [handleVote] filters with. *)
Definition viewerPrefix (type : VoteType) (uid : string) : string :=
  "vote:" ++ typeName type ++ ":" ++ uid.

(** The prefix [vote:{type}:] that the count of [type] tests. *)
Definition typePrefix (type : VoteType) : string :=
  match type with
  | Like => likePrefix
  | Dislike => dislikePrefix
  end.

End Inline.

(** ** Reply scheme: votes as reply annotations (the second version of
    [AnnotationActionBar]) *)

Module Reply.

(** [a.tags?.some(t => t.startsWith('vote:'))]: [undefined] when the
    annotation has no tag list. *)
Definition hasVoteTag (a : Annotation) : option bool :=
  match tags a with
  | Some l => Some (existsb (fun t => Js.startsWith t "vote:") l)
  | None => None
  end.

(** [r.tags?.includes(tag)]. *)
Definition tagsInclude (r : Annotation) (tag : string) : option bool :=
  match tags r with
  | Some l => Some (Js.includes l tag)
  | None => None
  end.

(** Truthiness of a [boolean | undefined] value. *)
Definition truthyBool (b : option bool) : bool :=
  match b with
  | Some b => b
  | None => false
  end.

Section Render.

Variable annotation : Annotation.
Variable store : Store.

(** Only allow voting on top-level annotations (not replies). *)
Definition isReply : bool :=
  match references annotation with
  | Some refs => (0 <? List.length refs)%nat
  | None => false
  end.

(** If this annotation itself is a vote-reply, don't show vote
    buttons. *)
Definition isVoteAnnotation : option bool := hasVoteTag annotation.

Definition shouldShowVoting : bool :=
  negb isReply && negb (truthyBool isVoteAnnotation).

(** The local [allAnns] of [getVoteReplies]: an array is truthy even
    when empty, so the first method that exists decides. *)
Definition allAnns : list Annotation :=
  match allAnnotations store with
  | Some l => l
  | None =>
      match annotations store with
      | Some l => l
      | None => []
      end
  end.

(** Utility to get all replies that are vote annotations for this
    parent. *)
Definition getVoteReplies : list Annotation :=
  filter
    (fun a =>
       let refs := match references a with
                   | Some refs => refs
                   | None => []
                   end in
       (0 <? List.length refs)%nat
       && Js.strictEq (nth_error refs (List.length refs - 1))
                      (id annotation)
       && truthyBool (hasVoteTag a))
    allAnns.

Definition voteReplies : list Annotation := getVoteReplies.

Definition likeCount : nat :=
  Js.countIf (fun r => truthyBool (tagsInclude r "vote:like"))
             voteReplies.

Definition dislikeCount : nat :=
  Js.countIf (fun r => truthyBool (tagsInclude r "vote:dislike"))
             voteReplies.

(** [userProfile.userid!]: the assertion has no run-time effect. *)
Definition userid : option string := profile_userid store.

Definition myExistingVote : option Annotation :=
  find (fun r => Js.strictEq userid (user r)) voteReplies.

(** [None] is the source's [null]. *)
Definition myVoteType : option VoteType :=
  match myExistingVote with
  | Some r =>
      Some (if truthyBool (tagsInclude r "vote:like") then Like
            else Dislike)
  | None => None
  end.

(** The specification's [viewerVote], read off [myVoteType]. *)
Definition viewerVote : ViewerVote :=
  match myVoteType with
  | Some type => voteOf type
  | None => VoteNone
  end.

(** [new Date().toISOString()], the way each awaited service call ends,
    and the helpers imported from [helpers/permissions] and the
    annotations service, none of which is part of the component. *)
Variable isoNow : string.
Variable deleteResult : Annotation -> ServiceResult.
Variable saveResult : Annotation -> ServiceResult.
Variable isPrivate : Permissions -> bool.
Variable sharedPermissions : option string -> string -> Permissions.
Variable privatePermissions : option string -> Permissions.
Variable annotationFromData : AnnotationData -> Annotation.

Definition voteTags (type : VoteType) : list string :=
  [ "vote:" ++ typeName type;
    "user:" ++ Js.template userid;
    "timestamp:" ++ isoNow ].

Definition replyAnn (type : VoteType) : Annotation :=
  annotationFromData
    {| data_references :=
         (match references annotation with
          | Some refs => refs
          | None => []
          end ++ [id annotation])%list;
       data_group := group annotation;
       data_uri := uri annotation;
       data_target :=
         [ {| source := match target annotation with
                        | t :: _ => source t
                        | [] => None
                        end |} ];
       data_text := "";
       data_tags := voteTags type;
       data_permissions :=
         if negb (isPrivate (permissions annotation))
         then sharedPermissions userid (group annotation)
         else privatePermissions userid |}.

Definition sameType (a : option VoteType) (b : VoteType) : bool :=
  match a, b with
  | Some Like, Like | Some Dislike, Dislike => true
  | _, _ => false
  end.

Definition onVote (type : VoteType) : Handler unit :=
  if negb (isLoggedIn store) then
    emit (OpenSidebarPanel "loginPrompt")
  else
    tryCatch
      (match myExistingVote with
       | Some existing =>
           if sameType myVoteType type then
             (* Toggle off if same vote *)
             await (Delete existing) (deleteResult existing)
           else
             (* Remove opposite vote first *)
             await (Delete existing) (deleteResult existing) ;;
             await (Save (replyAnn type)) (saveResult (replyAnn type))
       | None =>
           await (Save (replyAnn type)) (saveResult (replyAnn type))
       end)
      (fun err =>
         emit (ToastError match err with
                          | Some message => message
                          | None => "Failed to record vote"
                          end)).

End Render.

(** The reference test of the callback of [getVoteReplies], on its
    own. *)
Definition repliesTo (target a : Annotation) : bool :=
  let refs := match references a with
              | Some refs => refs
              | None => []
              end in
  (0 <? List.length refs)%nat
  && Js.strictEq (nth_error refs (List.length refs - 1)) (id target).

(** The test of [likeCount] and [dislikeCount]. *)
Definition carries (tag : string) (r : Annotation) : bool :=
  truthyBool (tagsInclude r tag).

(** The filter as the specification words it (section 4.1, reply scheme),
    to be compared with the callback of [getVoteReplies]: the candidates
    whose [references] sequence is non-empty, whose last reference equals
    [target.id], and whose tags contain [vote:like] or [vote:dislike]. *)
Definition specVoteReply (target : Annotation) (a : Annotation) : bool :=
  match references a with
  | Some (r :: refs) =>
      (last (r :: refs) "" =? id target)
      && match tags a with
         | Some l => Js.includes l "vote:like" || Js.includes l "vote:dislike"
         | None => false
         end
  | _ => false
  end.

End Reply.

(** ** The annotation body
    ([src/sidebar/components/Annotation/AnnotationBody.tsx]) *)

Module Body.

(** The fields of a draft the body reads. *)
Record Draft : Type := mkDraft {
  draft_tags : list string;
  draft_text : string
}.

Section Render.

Variable annotation : Annotation.

(** [store.getDraft(annotation)], [isThirdPartyUser(annotation.user,
    defaultAuthority)] and [store.getLink('search.tag', { tag })] come from
    the store and from [helpers/account-id]. *)
Variable draft : option Draft.
Variable authorIsThirdParty : bool.
Variable createTagSearchURL : string -> string.

(** If there is a draft use the tag and text from it:
    [draft?.tags ?? annotation.tags]. *)
Definition tags : option (list string) :=
  match draft with
  | Some d => Some (draft_tags d)
  | None => tags annotation
  end.

Definition text : string :=
  match draft with
  | Some d => draft_text d
  | None => text annotation
  end.

Definition showExcerpt : bool := (0 <? String.length text)%nat.

(** [tags.length > 0]; [None] is the [TypeError] of reading [length] of a
    missing tag list. *)
Definition showTagList : option bool :=
  match tags with
  | Some l => Some (0 <? List.length l)%nat
  | None => None
  end.

(** The [TagListItem]s of the render, each with its [tag] and [href]:
    none when the tag list is not shown. *)
Definition tagItems : option (list (string * option string)) :=
  match tags with
  | Some l =>
      Some (if (0 <? List.length l)%nat
            then map (fun tag =>
                        (tag, if negb authorIsThirdParty
                              then Some (createTagSearchURL tag)
                              else None))
                     l
            else [])
  | None => None
  end.

End Render.

End Body.

(** ** Sample data *)

Module Sample.

(** A public top-level annotation [a1] by [alice] with the given tags. *)
Definition annotated (tags : list string) : Annotation :=
  {| id := "a1"; user := "alice"; tags := Some tags; references := None;
     group := "__world__"; uri := "https://example.com/";
     target := [ {| source := Some "https://example.com/" |} ];
     text := "An annotation";
     permissions := {| perm_read := ["group:__world__"];
                       perm_update := ["alice"];
                       perm_delete := ["alice"] |};
     flagged := false |}.

(** A reply to [a1]. *)
Definition replyBy (author ident : string) (tags : list string)
  : Annotation :=
  {| id := ident; user := author; tags := Some tags;
     references := Some ["a1"];
     group := "__world__"; uri := "https://example.com/";
     target := [ {| source := Some "https://example.com/" |} ];
     text := "";
     permissions := {| perm_read := ["group:__world__"];
                       perm_update := [author];
                       perm_delete := [author] |};
     flagged := false |}.

(** The store as a logged-in viewer sees it, with the given annotations
    loaded. *)
Definition viewedBy (viewer : string) (loaded : list Annotation) : Store :=
  {| profile_userid := Some viewer; isLoggedIn := true;
     allAnnotations := Some loaded; annotations := None |}.

Definition viewedByBob (loaded : list Annotation) : Store :=
  viewedBy "bob" loaded.

(** The store of a visitor who is not logged in. *)
Definition anonymous : Store :=
  {| profile_userid := None; isLoggedIn := false;
     allAnnotations := Some []; annotations := None |}.

(** A persistence service whose calls all succeed. *)
Definition succeeds (_ : Annotation) : ServiceResult := Resolved.

(** Settings modelled as the list of configured services, of which
    the first one counts. *)
Definition firstService (services : list Service) : option Service :=
  hd_error services.

(** An [annotationFromData] that fills in the viewer [bob] as author and
    keeps the fields it is given. *)
Definition fromData (d : AnnotationData) : Annotation :=
  {| id := "r9"; user := "bob"; tags := Some (data_tags d);
     references := Some (data_references d);
     group := data_group d; uri := data_uri d; target := data_target d;
     text := data_text d; permissions := data_permissions d;
     flagged := false |}.

(** Permission helpers for the sample: every annotation is shared, and
    the permissions built name the user only. *)
Definition neverPrivate (_ : Permissions) : bool := false.

Definition sharedWith (userid : option string) (_ : string) : Permissions :=
  {| perm_read := ["group:__world__"];
     perm_update := [Js.template userid];
     perm_delete := [Js.template userid] |}.

Definition privateTo (userid : option string) : Permissions :=
  {| perm_read := [Js.template userid];
     perm_update := [Js.template userid];
     perm_delete := [Js.template userid] |}.

(** 2023-11-14T22:13:20Z, in milliseconds. *)
Definition clock : N := 1700000000000.

End Sample.

(** * Properties *)

(** ** Facts about the JavaScript primitives *)

Section JsFacts.

Lemma startsWith_spec (t p : string) :
  Js.startsWith t p = true <-> exists s, t = p ++ s.
Proof.
  unfold Js.startsWith. revert t.
  induction p as [|c p IH]; intros t.
  - destruct t; simpl; split; eauto.
  - destruct t as [|d t]; simpl.
    + split; [discriminate | intros [s Hs]; discriminate].
    + destruct (ascii_dec c d) as [->|Hne].
      * rewrite IH. split; intros [s Hs]; exists s; congruence.
      * split; [discriminate | intros [s Hs]; congruence].
Qed.

Lemma startsWith_append (p s : string) : Js.startsWith (p ++ s) p = true.
Proof. apply startsWith_spec. eauto. Qed.

Lemma append_assoc (a b c : string) : (a ++ b) ++ c = a ++ (b ++ c).
Proof. induction a; simpl; congruence. Qed.

(** A tag that starts with a longer prefix starts with the shorter one. *)
Lemma startsWith_shorten (t p q : string) :
  Js.startsWith t (p ++ q) = true -> Js.startsWith t p = true.
Proof.
  rewrite !startsWith_spec. intros [s ->].
  exists (q ++ s). apply append_assoc.
Qed.

Lemma startsWith_nonempty (t p : string) (c : ascii) :
  Js.startsWith t (String c p) = true -> (t =? "") = false.
Proof. destruct t; [discriminate | reflexivity]. Qed.

(** [!!l.find(t => t.startsWith(p))] tells whether some element starts
    with [p], as long as [p] is not empty. *)
Lemma truthy_find_startsWith (c : ascii) (p : string) (l : list string) :
  Js.truthy (find (fun t => Js.startsWith t (String c p)) l)
  = existsb (fun t => Js.startsWith t (String c p)) l.
Proof.
  induction l as [|t l IH]; [reflexivity|].
  cbn [find existsb].
  destruct (Js.startsWith t (String c p)) eqn:E; [|exact IH].
  cbn [Js.truthy orb]. now rewrite (startsWith_nonempty _ _ _ E).
Qed.

Lemma truthy_spec (o : option string) :
  Js.truthy o = true <-> exists s, o = Some s /\ s <> "".
Proof.
  destruct o as [s|]; cbn.
  - rewrite negb_true_iff, String.eqb_neq. split.
    + intros H. exists s. now split.
    + intros [s' [Hs Hne]]. congruence.
  - split; [discriminate | intros [s [Hs _]]; discriminate].
Qed.

Lemma strictEq_spec (o : option string) (s : string) :
  Js.strictEq o s = true <-> o = Some s.
Proof.
  destruct o as [a|]; cbn.
  - rewrite String.eqb_eq. split; congruence.
  - split; discriminate.
Qed.

Lemma includes_In (l : list string) (s : string) :
  Js.includes l s = true <-> In s l.
Proof.
  unfold Js.includes. rewrite existsb_exists. split.
  - intros [t [Hin Heq]]. apply String.eqb_eq in Heq. now subst.
  - intros Hin. exists s. split; [assumption | apply String.eqb_refl].
Qed.

End JsFacts.

(** ** Counting and filtering *)

Section ListFacts.

Context {A : Type}.
Implicit Types (p q : A -> bool) (l : list A).

Lemma countIf_app p l1 l2 :
  Js.countIf p (l1 ++ l2) = Js.countIf p l1 + Js.countIf p l2.
Proof. unfold Js.countIf. now rewrite filter_app, length_app. Qed.

(** Counting splits along any second predicate. *)
Lemma countIf_split p q l :
  Js.countIf p l
  = Js.countIf p (filter q l) + Js.countIf p (filter (fun x => negb (q x)) l).
Proof.
  unfold Js.countIf.
  induction l as [|x l IH]; [reflexivity|].
  cbn [filter]. destruct (q x); cbn [negb filter];
    destruct (p x); cbn [List.length]; lia.
Qed.

Lemma countIf_zero p l :
  Js.countIf p l = 0 <-> forall x, In x l -> p x = false.
Proof.
  unfold Js.countIf. induction l as [|x l IH]; cbn [filter].
  - split; [intros _ x [] | reflexivity].
  - destruct (p x) eqn:E; cbn [List.length].
    + split; [discriminate|]. intros H.
      specialize (H x (or_introl eq_refl)). congruence.
    + rewrite IH. split.
      * intros H y [<-|Hy]; auto.
      * intros H y Hy. apply H. now right.
Qed.

Lemma existsb_false_countIf p l :
  existsb p l = false <-> Js.countIf p l = 0.
Proof.
  rewrite countIf_zero. induction l as [|x l IH]; cbn [existsb].
  - split; [intros _ x [] | reflexivity].
  - rewrite orb_false_iff, IH. split.
    + intros [Hx H] y [<-|Hy]; auto.
    + intros H. split; [apply H; now left|].
      intros y Hy. apply H. now right.
Qed.

Lemma countIf_mono p q l :
  (forall x, p x = true -> q x = true) ->
  Js.countIf p l <= Js.countIf q l.
Proof.
  intros Hpq. unfold Js.countIf.
  induction l as [|x l IH]; [apply Nat.le_refl|].
  cbn [filter]. destruct (p x) eqn:E.
  - rewrite (Hpq x E). cbn [List.length]. lia.
  - destruct (q x); cbn [List.length]; lia.
Qed.

Lemma filter_all p l :
  (forall x, In x l -> p x = true) -> filter p l = l.
Proof.
  induction l as [|x l IH]; intros H; [reflexivity|].
  cbn [filter]. rewrite (H x (or_introl eq_refl)).
  f_equal. apply IH. intros y Hy. apply H. now right.
Qed.

Lemma find_hd_filter p l : find p l = hd_error (filter p l).
Proof.
  induction l as [|x l IH]; [reflexivity|].
  cbn [find filter]. now destruct (p x).
Qed.

End ListFacts.

(** ** Inline scheme *)

Module InlineFacts.
Import Inline.

Lemma like_not_dislike (t : string) :
  Js.startsWith t likePrefix = true -> Js.startsWith t dislikePrefix = false.
Proof. intros H. apply startsWith_spec in H as [s ->]. reflexivity. Qed.

Lemma dislike_not_like (t : string) :
  Js.startsWith t dislikePrefix = true -> Js.startsWith t likePrefix = false.
Proof. intros H. apply startsWith_spec in H as [s ->]. reflexivity. Qed.

Lemma viewer_like_is_like (u t : string) :
  Js.startsWith t (likePrefix ++ u) = true ->
  Js.startsWith t likePrefix = true.
Proof. apply startsWith_shorten. Qed.

Lemma viewer_dislike_is_dislike (u t : string) :
  Js.startsWith t (dislikePrefix ++ u) = true ->
  Js.startsWith t dislikePrefix = true.
Proof. apply startsWith_shorten. Qed.

Lemma matchesViewer_false (u t : string) :
  matchesViewer u t = false <->
  Js.startsWith t (likePrefix ++ u) = false
  /\ Js.startsWith t (dislikePrefix ++ u) = false.
Proof. unfold matchesViewer. apply orb_false_iff. Qed.

(** The test [handleVote] filters with keeps the tags that
    [matchesViewer] rejects, whichever type is requested. *)
Lemma keep_matchesViewer (type : VoteType) (u t : string) :
  negb (Js.startsWith t ("vote:" ++ typeName type ++ ":" ++ u))
  && negb (Js.startsWith t ("vote:" ++ typeName (otherType type) ++ ":" ++ u))
  = negb (matchesViewer u t).
Proof.
  unfold matchesViewer. rewrite negb_orb.
  destruct type; [reflexivity | apply andb_comm].
Qed.

(** A marker of the viewer is among the tags [handleVote] drops. *)
Lemma marker_matchesViewer (u t : string) :
  isVoteMarkerOf u t = true -> matchesViewer u t = true.
Proof.
  unfold isVoteMarkerOf, matchesViewer. rewrite !orb_true_iff.
  intros [H|H]; [left|right].
  - exact (startsWith_shorten t ("vote:like:" ++ u) ":" H).
  - exact (startsWith_shorten t ("vote:dislike:" ++ u) ":" H).
Qed.

Lemma markerFor_like (u ts : string) :
  Js.startsWith (markerFor Like u ts) (likePrefix ++ u) = true.
Proof. exact (startsWith_append ("vote:like:" ++ u) (":" ++ ts)). Qed.

Lemma markerFor_dislike (u ts : string) :
  Js.startsWith (markerFor Dislike u ts) (dislikePrefix ++ u) = true.
Proof. exact (startsWith_append ("vote:dislike:" ++ u) (":" ++ ts)). Qed.

Lemma markerFor_isVoteMarkerOf (type : VoteType) (u ts : string) :
  isVoteMarkerOf u (markerFor type u ts) = true.
Proof.
  unfold isVoteMarkerOf. apply orb_true_iff.
  destruct type; [left|right]; apply startsWith_spec; exists ts;
    unfold markerFor; cbn [typeName append]; now rewrite append_assoc.
Qed.

(** [isVoteMarkerOf] holds of the tags [vote:{like|dislike}:{uid}:{ts}]
    and of no other. *)
Lemma isVoteMarkerOf_spec (u t : string) :
  isVoteMarkerOf u t = true <-> exists type ts, t = markerFor type u ts.
Proof.
  assert (Hform : forall type ts,
            markerFor type u ts
            = ("vote:" ++ typeName type ++ ":" ++ u ++ ":") ++ ts).
  { intros type ts. unfold markerFor.
    destruct type; cbn [typeName append]; now rewrite append_assoc. }
  split.
  - unfold isVoteMarkerOf. rewrite orb_true_iff, !startsWith_spec.
    intros [[ts ->]|[ts ->]];
      [exists Like, ts | exists Dislike, ts]; now rewrite Hform.
  - intros [type [ts ->]]. apply markerFor_isVoteMarkerOf.
Qed.

Section Render.

Variables (annotation : Annotation) (store : Store) (now : N).
Variable saveResult : Annotation -> ServiceResult.

Let u : string := Js.template (userId store).

(** [alreadyVotedSameType] of [handleVote]. *)
Lemma liked_existsb :
  Js.truthy (userLikeTag annotation store)
  = existsb (fun t => Js.startsWith t (likePrefix ++ u)) (tags annotation).
Proof. exact (truthy_find_startsWith _ _ _). Qed.

Lemma disliked_existsb :
  Js.truthy (userDislikeTag annotation store)
  = existsb (fun t => Js.startsWith t (dislikePrefix ++ u))
            (tags annotation).
Proof. exact (truthy_find_startsWith _ _ _). Qed.

(** [newTags] in closed form: the tags of other origin in their order,
    followed by the new marker unless the click retracts a vote. *)
Lemma newTags_eq (type : VoteType) :
  newTags annotation store now type
  = (filter (fun t => negb (matchesViewer u t)) (tags annotation)
     ++ if match type with
           | Like => Js.truthy (userLikeTag annotation store)
           | Dislike => Js.truthy (userDislikeTag annotation store)
           end
        then []
        else [markerFor type u (Js.numberToString (timestamp now))])%list.
Proof.
  unfold newTags.
  rewrite (filter_ext _ (fun t => negb (matchesViewer u t)))
    by (intros t; apply keep_matchesViewer).
  destruct type;
    match goal with
    | |- context [Js.truthy ?x] => destruct (Js.truthy x)
    end; cbn [negb]; try reflexivity; now rewrite app_nil_r.
Qed.

(** A click of a logged-in viewer issues exactly one save, of the
    annotation with [newTags]. *)
Lemma handleVote_saves (type : VoteType) :
  isLoggedIn store = true ->
  saves (trace (handleVote annotation store now saveResult type))
  = [rerender annotation store now type].
Proof.
  intros Hin. unfold handleVote, rerender. rewrite Hin. cbn [negb].
  unfold await, tryCatch, emit, trace.
  now destruct (saveResult _).
Qed.

End Render.

End InlineFacts.

Section InlineDerivation.

Variables (annotation : Annotation) (store : Store).

Let u : string := Js.template (Inline.userId store).

Lemma viewerVote_none :
  Inline.viewerVote annotation store = VoteNone <->
  forall t, In t (Inline.tags annotation) -> Inline.matchesViewer u t = false.
Proof.
  unfold Inline.viewerVote.
  rewrite InlineFacts.liked_existsb, InlineFacts.disliked_existsb.
  fold u.
  destruct (existsb (fun t => Js.startsWith t (Inline.likePrefix ++ u)) _)
    eqn:El;
    [|destruct (existsb (fun t => Js.startsWith t (Inline.dislikePrefix ++ u))
                        _) eqn:Ed].
  - split; [discriminate|]. intros H.
    apply existsb_exists in El as [t [Hin Ht]].
    apply H, InlineFacts.matchesViewer_false in Hin. destruct Hin. congruence.
  - split; [discriminate|]. intros H.
    apply existsb_exists in Ed as [t [Hin Ht]].
    apply H, InlineFacts.matchesViewer_false in Hin. destruct Hin. congruence.
  - split; [|reflexivity]. intros _ t Hin.
    apply InlineFacts.matchesViewer_false.
    apply existsb_false_countIf in El, Ed.
    rewrite countIf_zero in El, Ed. auto.
Qed.

(** C6.  A tag list without any tag that starts with [vote:like:] or
    [vote:dislike:] derives to zero likes, zero dislikes and no vote of
    the viewer, whoever the viewer is. *)
Theorem derive_without_markers :
  Js.countIf Inline.isVoteMarker (Inline.tags annotation) = 0 ->
  Inline.likeCount annotation = 0
  /\ Inline.dislikeCount annotation = 0
  /\ Inline.viewerVote annotation store = VoteNone.
Proof.
  intros H. rewrite countIf_zero in H.
  assert (Hboth : forall t, In t (Inline.tags annotation) ->
            Js.startsWith t Inline.likePrefix = false
            /\ Js.startsWith t Inline.dislikePrefix = false).
  { intros t Hin. apply orb_false_iff. exact (H t Hin). }
  split; [|split].
  - apply countIf_zero. intros t Hin. apply (Hboth t Hin).
  - apply countIf_zero. intros t Hin. apply (Hboth t Hin).
  - apply viewerVote_none. intros t Hin.
    destruct (Hboth t Hin) as [Hl Hd].
    apply InlineFacts.matchesViewer_false. split.
    + destruct (Js.startsWith t (Inline.likePrefix ++ u)) eqn:E; auto.
      apply InlineFacts.viewer_like_is_like in E. congruence.
    + destruct (Js.startsWith t (Inline.dislikePrefix ++ u)) eqn:E; auto.
      apply InlineFacts.viewer_dislike_is_dislike in E. congruence.
Qed.

End InlineDerivation.

Lemma derive_without_markers_witness :
  Js.countIf Inline.isVoteMarker
             (Inline.tags (Sample.annotated ["biology"; "vote:maybe"])) = 0
  /\ Inline.likeCount (Sample.annotated ["biology"; "vote:maybe"]) = 0
  /\ Inline.dislikeCount (Sample.annotated ["biology"; "vote:maybe"]) = 0
  /\ Inline.viewerVote (Sample.annotated ["biology"; "vote:maybe"])
                       (Sample.viewedByBob []) = VoteNone.
Proof.
  split; [reflexivity|].
  apply (derive_without_markers
           (Sample.annotated ["biology"; "vote:maybe"])
           (Sample.viewedByBob [])).
  reflexivity.
Defined.

(** C2.  The lookup of the viewer's vote tests the prefix
    [vote:like:{viewerId}] without the [:] that ends the userid segment:
    viewer [bob] is credited with the like of [bob2], although no tag of
    the list is a marker of [bob]. *)
Theorem viewer_vote_taken_from_longer_userid :
  let annotation := Sample.annotated ["vote:like:bob2:1700000000"] in
  Inline.viewerVote annotation (Sample.viewedByBob []) = VoteLike
  /\ Js.countIf (Inline.isVoteMarkerOf "bob") (Inline.tags annotation) = 0.
Proof. split; reflexivity. Qed.

Section InlineMutation.

Variables (annotation : Annotation) (store : Store) (now : N).
Variable saveResult : Annotation -> ServiceResult.

Let u : string := Js.template (Inline.userId store).
Let stamp : string := Js.numberToString (Inline.timestamp now).
Let kept : list string :=
  filter (fun t => negb (Inline.matchesViewer u t)) (Inline.tags annotation).

Lemma kept_no_match (t : string) :
  In t kept -> Inline.matchesViewer u t = false.
Proof.
  unfold kept. rewrite filter_In. intros [_ H].
  now apply negb_true_iff in H.
Qed.

Lemma kept_no_marker : Js.countIf (Inline.matchesViewer u) kept = 0.
Proof. apply countIf_zero, kept_no_match. Qed.

(** Nothing is dropped when the viewer has no vote. *)
Lemma kept_all :
  Inline.viewerVote annotation store = VoteNone ->
  kept = Inline.tags annotation.
Proof.
  intros H. apply filter_all. intros t Hin. apply negb_true_iff.
  exact (proj1 (viewerVote_none annotation store) H t Hin).
Qed.

(** The viewer's vote after a save, from the dropped-and-added form of
    the saved tag list. *)
Lemma viewerVote_kept (a : Annotation) :
  tags a = Some kept -> Inline.viewerVote a store = VoteNone.
Proof.
  intros Ha. apply viewerVote_none. unfold Inline.tags. rewrite Ha.
  exact kept_no_match.
Qed.

(** X16.  When no tag of the list starts with [vote:like:{uid}] or
    [vote:dislike:{uid}], a click of the logged-in viewer issues one save,
    of the annotation whose tag list is the old one with one marker of the
    viewer appended: every tag that was there is still there, unchanged
    and in its place. *)
Theorem fresh_vote_appends_marker (type : VoteType) :
  isLoggedIn store = true ->
  Js.countIf (Inline.matchesViewer u) (Inline.tags annotation) = 0 ->
  saves (trace (Inline.handleVote annotation store now saveResult type))
  = [withTags annotation
       (Inline.tags annotation ++ [Inline.markerFor type u stamp])]
  /\ map tags
         (saves (trace (Inline.handleVote annotation store now saveResult
                                          type)))
     = [Some (Inline.tags annotation ++ [Inline.markerFor type u stamp])%list]
  /\ Inline.isVoteMarkerOf u (Inline.markerFor type u stamp) = true.
Proof.
  intros Hin Hzero.
  assert (Hnone : Inline.viewerVote annotation store = VoteNone)
    by (apply viewerVote_none, countIf_zero; exact Hzero).
  assert (Hsaves :
            saves (trace (Inline.handleVote annotation store now saveResult
                                            type))
            = [withTags annotation
                 (Inline.tags annotation ++ [Inline.markerFor type u stamp])]).
  { rewrite InlineFacts.handleVote_saves by assumption.
    unfold Inline.rerender. rewrite InlineFacts.newTags_eq.
    fold u kept stamp. rewrite (kept_all Hnone).
    unfold Inline.viewerVote in Hnone.
    destruct (Js.truthy (Inline.userLikeTag annotation store));
      [discriminate|].
    destruct (Js.truthy (Inline.userDislikeTag annotation store));
      [discriminate|].
    now destruct type. }
  split; [exact Hsaves|]. split.
  - rewrite Hsaves. reflexivity.
  - apply InlineFacts.markerFor_isVoteMarkerOf.
Qed.

(** C3.  Whatever the tag list was, a click issues one save, and the tag
    list of the annotation it saves holds at most one marker
    [vote:{like|dislike}:{uid}:...] of the viewer; it even holds at most
    one tag that starts with [vote:{like|dislike}:{uid}]. *)
Theorem saved_tags_hold_one_vote (type : VoteType) :
  isLoggedIn store = true ->
  exists l,
    saves (trace (Inline.handleVote annotation store now saveResult type))
    = [withTags annotation l]
    /\ map tags
           (saves (trace (Inline.handleVote annotation store now saveResult
                                            type)))
       = [Some l]
    /\ Js.countIf (Inline.isVoteMarkerOf u) l <= 1
    /\ Js.countIf (Inline.matchesViewer u) l <= 1.
Proof.
  intros Hin. exists (Inline.newTags annotation store now type).
  split; [exact (InlineFacts.handleVote_saves _ _ _ _ _ Hin)|].
  split; [now rewrite (InlineFacts.handleVote_saves _ _ _ _ _ Hin)|].
  assert (Hm : Js.countIf (Inline.matchesViewer u)
                 (Inline.newTags annotation store now type) <= 1).
  { rewrite InlineFacts.newTags_eq. fold u kept.
    rewrite countIf_app, kept_no_marker.
    match goal with |- context [if ?b then _ else _] => destruct b end.
    - cbn. lia.
    - unfold Js.countIf. cbn [filter].
      destruct (Inline.matchesViewer u _); cbn; lia. }
  split; [|exact Hm].
  eapply Nat.le_trans; [|exact Hm].
  apply countIf_mono, InlineFacts.marker_matchesViewer.
Qed.

Lemma markerFor_prefix (type : VoteType) (ts : string) :
  Js.startsWith (Inline.markerFor type u ts) Inline.likePrefix
  = match type with Like => true | Dislike => false end
  /\ Js.startsWith (Inline.markerFor type u ts) Inline.dislikePrefix
    = match type with Like => false | Dislike => true end.
Proof.
  destruct type.
  - assert (H : Js.startsWith (Inline.markerFor Like u ts) Inline.likePrefix
                = true)
      by exact (startsWith_append "vote:like:" (u ++ ":" ++ ts)).
    split; [exact H | exact (InlineFacts.like_not_dislike _ H)].
  - assert (H : Js.startsWith (Inline.markerFor Dislike u ts)
                              Inline.dislikePrefix = true)
      by exact (startsWith_append "vote:dislike:" (u ++ ":" ++ ts)).
    split; [exact (InlineFacts.dislike_not_like _ H) | exact H].
Qed.

Section SingleVote.

(** The viewer's vote is recorded by one tag [mk] of the list, and no
    other tag starts with [vote:like:{uid}] or [vote:dislike:{uid}]. *)
Variable mk : string.
Hypothesis single :
  filter (Inline.matchesViewer u) (Inline.tags annotation) = [mk].

Lemma single_In : In mk (Inline.tags annotation).
Proof.
  assert (H : In mk (filter (Inline.matchesViewer u)
                            (Inline.tags annotation)))
    by (rewrite single; now left).
  now apply filter_In in H.
Qed.

Lemma single_only (t : string) :
  In t (Inline.tags annotation) ->
  Inline.matchesViewer u t = true -> t = mk.
Proof.
  intros Hin Hm.
  assert (H : In t (filter (Inline.matchesViewer u)
                           (Inline.tags annotation)))
    by (apply filter_In; now split).
  rewrite single in H. destruct H as [H|[]]. now symmetry.
Qed.

(** Every count over the tag list is the count over the kept tags
    plus the contribution of [mk]. *)
Lemma single_count (p : string -> bool) :
  Js.countIf p (Inline.tags annotation)
  = (if p mk then 1 else 0) + Js.countIf p kept.
Proof.
  rewrite (countIf_split p (Inline.matchesViewer u)), single.
  fold kept. unfold Js.countIf at 1. cbn [filter].
  now destruct (p mk).
Qed.

End SingleVote.

(** Which lookups succeed when the single tag of the viewer is a
    well-formed marker of type [type]. *)
Lemma voted_single (type : VoteType) (ts : string) :
  filter (Inline.matchesViewer u) (Inline.tags annotation)
  = [Inline.markerFor type u ts] ->
  Js.truthy (Inline.userLikeTag annotation store)
  = match type with Like => true | Dislike => false end
  /\ Js.truthy (Inline.userDislikeTag annotation store)
    = match type with Like => false | Dislike => true end.
Proof.
  intros Hs.
  rewrite InlineFacts.liked_existsb, InlineFacts.disliked_existsb. fold u.
  pose proof (single_In _ Hs) as Hin.
  destruct (markerFor_prefix type ts) as [Hl Hd].
  assert (Hother : forall t, In t (Inline.tags annotation) ->
            (Js.startsWith t (Inline.likePrefix ++ u) = true ->
             type = Like)
            /\ (Js.startsWith t (Inline.dislikePrefix ++ u) = true ->
                type = Dislike)).
  { intros t Ht. split; intros E.
    - assert (t = Inline.markerFor type u ts) as ->
        by (apply (single_only _ Hs t Ht); apply orb_true_iff; left;
            exact E).
      apply InlineFacts.viewer_like_is_like in E. rewrite Hl in E.
      now destruct type.
    - assert (t = Inline.markerFor type u ts) as ->
        by (apply (single_only _ Hs t Ht); apply orb_true_iff; right;
            exact E).
      apply InlineFacts.viewer_dislike_is_dislike in E. rewrite Hd in E.
      now destruct type. }
  destruct type; split.
  - apply existsb_exists. eexists. split; [exact Hin|].
    apply InlineFacts.markerFor_like.
  - apply existsb_false_countIf, countIf_zero. intros t Ht.
    destruct (Js.startsWith t (Inline.dislikePrefix ++ u)) eqn:E; auto.
    now apply (Hother t Ht) in E.
  - apply existsb_false_countIf, countIf_zero. intros t Ht.
    destruct (Js.startsWith t (Inline.likePrefix ++ u)) eqn:E; auto.
    now apply (Hother t Ht) in E.
  - apply existsb_exists. eexists. split; [exact Hin|].
    apply InlineFacts.markerFor_dislike.
Qed.

(** C1 (amended).  When the viewer's vote is recorded by exactly one tag,
    a marker [vote:{type}:{uid}:{ts}], and no other tag starts with
    [vote:like:{uid}] or [vote:dislike:{uid}], then the derived vote is
    [type], and a click on [type] saves a tag list that derives to no vote
    of the viewer, one vote less of that type and as many of the other. *)
Theorem toggle_retracts_single_vote (type : VoteType) (ts : string) :
  isLoggedIn store = true ->
  filter (Inline.matchesViewer u) (Inline.tags annotation)
  = [Inline.markerFor type u ts] ->
  let annotation' := Inline.rerender annotation store now type in
  Inline.viewerVote annotation store = voteOf type
  /\ saves (trace (Inline.handleVote annotation store now saveResult type))
     = [annotation']
  /\ Inline.viewerVote annotation' store = VoteNone
  /\ S (Inline.tally type annotation') = Inline.tally type annotation
  /\ Inline.tally (Inline.otherType type) annotation'
     = Inline.tally (Inline.otherType type) annotation.
Proof.
  intros Hin Hs a'.
  destruct (voted_single type ts Hs) as [Hl Hd].
  destruct (markerFor_prefix type ts) as [Pl Pd].
  assert (Htags : tags a' = Some kept).
  { unfold a', Inline.rerender. cbn [tags withTags]. f_equal.
    rewrite InlineFacts.newTags_eq. fold u kept.
    destruct type; rewrite ?Hl, ?Hd; apply app_nil_r. }
  assert (Ht' : Inline.tags a' = kept)
    by (unfold Inline.tags; now rewrite Htags).
  split; [|split; [|split; [|split]]].
  - unfold Inline.viewerVote. rewrite Hl, Hd. now destruct type.
  - exact (InlineFacts.handleVote_saves _ _ _ _ _ Hin).
  - exact (viewerVote_kept a' Htags).
  - destruct type; cbn [Inline.tally];
      unfold Inline.likeCount, Inline.dislikeCount;
      rewrite Ht', (single_count _ Hs), ?Pl, ?Pd; reflexivity.
  - destruct type; cbn [Inline.tally Inline.otherType];
      unfold Inline.likeCount, Inline.dislikeCount;
      rewrite Ht', (single_count _ Hs), ?Pl, ?Pd; reflexivity.
Qed.

(** C4 (amended).  When the viewer's vote is recorded by exactly one tag,
    a marker [vote:dislike:{uid}:{ts}], and no other tag starts with
    [vote:like:{uid}] or [vote:dislike:{uid}], then the derived vote is
    dislike, and a click on like issues a single save whose tag list
    derives to a like of the viewer, one like more and one dislike less,
    and holds no dislike tag of the viewer. *)
Theorem switch_replaces_single_dislike (ts : string) :
  isLoggedIn store = true ->
  filter (Inline.matchesViewer u) (Inline.tags annotation)
  = [Inline.markerFor Dislike u ts] ->
  let annotation' := Inline.rerender annotation store now Like in
  Inline.viewerVote annotation store = VoteDislike
  /\ saves (trace (Inline.handleVote annotation store now saveResult Like))
     = [annotation']
  /\ Inline.viewerVote annotation' store = VoteLike
  /\ Inline.likeCount annotation' = S (Inline.likeCount annotation)
  /\ S (Inline.dislikeCount annotation') = Inline.dislikeCount annotation
  /\ Js.countIf (fun t => Js.startsWith t (Inline.dislikePrefix ++ u))
                (Inline.tags annotation') = 0.
Proof.
  intros Hin Hs a'.
  destruct (voted_single Dislike ts Hs) as [Hl Hd].
  destruct (markerFor_prefix Dislike ts) as [Pl Pd].
  destruct (markerFor_prefix Like stamp) as [Ql Qd].
  assert (Ht' : Inline.tags a'
                = (kept ++ [Inline.markerFor Like u stamp])%list).
  { unfold a', Inline.rerender, Inline.tags. cbn [tags withTags].
    rewrite InlineFacts.newTags_eq. fold u kept stamp. now rewrite Hl. }
  split; [|split; [|split; [|split; [|split]]]].
  - unfold Inline.viewerVote. now rewrite Hl, Hd.
  - exact (InlineFacts.handleVote_saves _ _ _ _ _ Hin).
  - unfold Inline.viewerVote. rewrite InlineFacts.liked_existsb. fold u.
    rewrite Ht', existsb_app. cbn [existsb].
    rewrite InlineFacts.markerFor_like. cbn [orb].
    now rewrite orb_true_r.
  - unfold Inline.likeCount.
    rewrite Ht', countIf_app, (single_count _ Hs), Pl.
    unfold Js.countIf at 2. cbn [filter]. rewrite Ql. cbn [List.length]. lia.
  - unfold Inline.dislikeCount.
    rewrite Ht', countIf_app, (single_count _ Hs), Pd.
    unfold Js.countIf at 2. cbn [filter]. rewrite Qd. cbn [List.length]. lia.
  - rewrite Ht'. apply countIf_zero. intros t Ht.
    apply in_app_or in Ht as [Ht|[<-|[]]].
    + now apply kept_no_match, InlineFacts.matchesViewer_false in Ht.
    + reflexivity.
Qed.

End InlineMutation.

Lemma fresh_vote_appends_marker_witness :
  let annotation :=
    Sample.annotated ["biology"; "vote:like:carol:1699990000"] in
  let store := Sample.viewedByBob [] in
  isLoggedIn store = true
  /\ Js.countIf (Inline.matchesViewer "bob") (Inline.tags annotation) = 0
  /\ map tags
         (saves (trace (Inline.handleVote annotation store Sample.clock
                                          Sample.succeeds Dislike)))
     = [Some ["biology"; "vote:like:carol:1699990000";
              "vote:dislike:bob:1700000000"]].
Proof.
  cbv zeta. split; [reflexivity|]. split; [reflexivity|].
  exact (proj1 (proj2 (fresh_vote_appends_marker
                  (Sample.annotated ["biology"; "vote:like:carol:1699990000"])
                  (Sample.viewedByBob []) Sample.clock Sample.succeeds Dislike
                  eq_refl eq_refl))).
Defined.

(** C7.  The filter of [handleVote] tests the prefix
    [vote:{type}:{viewerId}] without the [:] that ends the userid segment:
    viewer [bob] has no marker in the list, yet his fresh dislike drops
    the like of [bob2] from the tag list that is saved. *)
Theorem fresh_vote_drops_tag_of_longer_userid :
  let annotation :=
    Sample.annotated ["biology"; "vote:like:bob2:1699990000"] in
  let store := Sample.viewedByBob [] in
  isLoggedIn store = true
  /\ Js.countIf (Inline.isVoteMarkerOf "bob") (Inline.tags annotation) = 0
  /\ Inline.isVoteMarkerOf "bob2" "vote:like:bob2:1699990000" = true
  /\ map tags
         (saves (trace (Inline.handleVote annotation store Sample.clock
                                          Sample.succeeds Dislike)))
     = [Some ["biology"; "vote:dislike:bob:1700000000"]].
Proof. cbv zeta. repeat split. Qed.

Lemma saved_tags_hold_one_vote_witness :
  let annotation :=
    Sample.annotated ["vote:like:bob:1699990000"; "vote:dislike:bob:1699990001";
                      "vote:like:bob:1699990002"] in
  let store := Sample.viewedByBob [] in
  isLoggedIn store = true
  /\ exists l,
       saves (trace (Inline.handleVote annotation store Sample.clock
                                       Sample.succeeds Dislike))
       = [withTags annotation l]
       /\ map tags
              (saves (trace (Inline.handleVote annotation store Sample.clock
                                               Sample.succeeds Dislike)))
          = [Some l]
       /\ Js.countIf (Inline.isVoteMarkerOf "bob") l <= 1
       /\ Js.countIf (Inline.matchesViewer "bob") l <= 1.
Proof.
  cbv zeta. split; [reflexivity|].
  exact (saved_tags_hold_one_vote
           (Sample.annotated
              ["vote:like:bob:1699990000"; "vote:dislike:bob:1699990001";
               "vote:like:bob:1699990002"])
           (Sample.viewedByBob []) Sample.clock Sample.succeeds Dislike
           eq_refl).
Defined.

Lemma toggle_retracts_single_vote_witness :
  let annotation :=
    Sample.annotated ["biology"; "vote:like:bob:1699990000";
                      "vote:dislike:carol:1699990050"] in
  let store := Sample.viewedByBob [] in
  let annotation' := Inline.rerender annotation store Sample.clock Like in
  isLoggedIn store = true
  /\ filter (Inline.matchesViewer "bob") (Inline.tags annotation)
     = [Inline.markerFor Like "bob" "1699990000"]
  /\ Inline.viewerVote annotation store = VoteLike
  /\ saves (trace (Inline.handleVote annotation store Sample.clock
                                     Sample.succeeds Like))
     = [annotation']
  /\ Inline.viewerVote annotation' store = VoteNone
  /\ S (Inline.likeCount annotation') = Inline.likeCount annotation
  /\ Inline.dislikeCount annotation' = Inline.dislikeCount annotation.
Proof.
  cbv zeta. split; [reflexivity|]. split; [reflexivity|].
  exact (toggle_retracts_single_vote
           (Sample.annotated ["biology"; "vote:like:bob:1699990000";
                              "vote:dislike:carol:1699990050"])
           (Sample.viewedByBob []) Sample.clock Sample.succeeds Like
           "1699990000" eq_refl eq_refl).
Defined.

(** C1 as stated fails on a tag list that holds a like and a dislike of the
    same viewer: the derived vote is like, and the click on like drops both
    tags, so that the dislike count changes too. *)
Lemma toggle_law_fails_on_double_vote :
  let annotation :=
    Sample.annotated ["vote:like:bob:1699990000";
                      "vote:dislike:bob:1699990001"] in
  let store := Sample.viewedByBob [] in
  let annotation' := Inline.rerender annotation store Sample.clock Like in
  Inline.viewerVote annotation store = VoteLike
  /\ saves (trace (Inline.handleVote annotation store Sample.clock
                                     Sample.succeeds Like))
     = [annotation']
  /\ ~ (Inline.viewerVote annotation' store = VoteNone
        /\ S (Inline.likeCount annotation') = Inline.likeCount annotation
        /\ Inline.dislikeCount annotation' = Inline.dislikeCount annotation).
Proof.
  cbv zeta. split; [reflexivity|]. split; [reflexivity|].
  intros [_ [_ H]]. discriminate H.
Qed.

Lemma switch_replaces_single_dislike_witness :
  let annotation :=
    Sample.annotated ["vote:like:carol:1699990050";
                      "vote:dislike:bob:1699990000"; "biology"] in
  let store := Sample.viewedByBob [] in
  let annotation' := Inline.rerender annotation store Sample.clock Like in
  isLoggedIn store = true
  /\ filter (Inline.matchesViewer "bob") (Inline.tags annotation)
     = [Inline.markerFor Dislike "bob" "1699990000"]
  /\ Inline.viewerVote annotation store = VoteDislike
  /\ saves (trace (Inline.handleVote annotation store Sample.clock
                                     Sample.succeeds Like))
     = [annotation']
  /\ Inline.viewerVote annotation' store = VoteLike
  /\ Inline.likeCount annotation' = S (Inline.likeCount annotation)
  /\ S (Inline.dislikeCount annotation') = Inline.dislikeCount annotation
  /\ Js.countIf (fun t => Js.startsWith t (Inline.dislikePrefix ++ "bob"))
                (Inline.tags annotation') = 0.
Proof.
  cbv zeta. split; [reflexivity|]. split; [reflexivity|].
  exact (switch_replaces_single_dislike
           (Sample.annotated ["vote:like:carol:1699990050";
                              "vote:dislike:bob:1699990000"; "biology"])
           (Sample.viewedByBob []) Sample.clock Sample.succeeds
           "1699990000" eq_refl eq_refl).
Defined.

(** C4 as stated fails on a tag list that holds two dislikes of the same
    viewer: the derived vote is dislike, and the click on like drops both,
    so that the dislike count falls by two. *)
Lemma switch_law_fails_on_repeated_dislike :
  let annotation :=
    Sample.annotated ["vote:dislike:bob:1699990000";
                      "vote:dislike:bob:1699990001"] in
  let store := Sample.viewedByBob [] in
  let annotation' := Inline.rerender annotation store Sample.clock Like in
  Inline.viewerVote annotation store = VoteDislike
  /\ saves (trace (Inline.handleVote annotation store Sample.clock
                                     Sample.succeeds Like))
     = [annotation']
  /\ Inline.dislikeCount annotation = 2
  /\ Inline.dislikeCount annotation' = 0
  /\ ~ (Inline.viewerVote annotation' store = VoteLike
        /\ Inline.likeCount annotation' = S (Inline.likeCount annotation)
        /\ S (Inline.dislikeCount annotation')
           = Inline.dislikeCount annotation).
Proof.
  cbv zeta. repeat (split; [reflexivity|]).
  intros [_ [_ H]]. discriminate H.
Qed.

(** ** Votes of visitors who are not logged in *)

Section LoggedOut.

Variables (annotation : Annotation) (store : Store).

(** The inputs of a click in the inline scheme. *)
Variable now : N.
Variable saveTags : Annotation -> ServiceResult.

(** The inputs of a click in the reply scheme. *)
Variable isoNow : string.
Variables deleteResult saveResult : Annotation -> ServiceResult.
Variable isPrivate : Permissions -> bool.
Variable sharedPermissions : option string -> string -> Permissions.
Variable privatePermissions : option string -> Permissions.
Variable annotationFromData : AnnotationData -> Annotation.

(** C9.  When the viewer is not logged in, a vote click in either scheme
    makes one call, the opening of the login prompt, and returns
    normally: nothing is saved, deleted or created, and no error is
    reported. *)
Theorem vote_logged_out_opens_login_prompt (type : VoteType) :
  isLoggedIn store = false ->
  Inline.handleVote annotation store now saveTags type
  = ([OpenSidebarPanel "loginPrompt"], Returned tt)
  /\ Reply.onVote annotation store isoNow deleteResult saveResult isPrivate
                  sharedPermissions privatePermissions annotationFromData
                  type
     = ([OpenSidebarPanel "loginPrompt"], Returned tt).
Proof.
  intros Hout. unfold Inline.handleVote, Reply.onVote.
  rewrite Hout. split; reflexivity.
Qed.

End LoggedOut.

Lemma vote_logged_out_opens_login_prompt_witness :
  let annotation := Sample.annotated ["vote:like:carol:1699990000"] in
  isLoggedIn Sample.anonymous = false
  /\ Inline.handleVote annotation Sample.anonymous Sample.clock
                       Sample.succeeds Like
     = ([OpenSidebarPanel "loginPrompt"], Returned tt)
  /\ Reply.onVote annotation Sample.anonymous "2023-11-14T22:13:20.000Z"
                  Sample.succeeds Sample.succeeds
                  (fun _ => false)
                  (fun _ _ => permissions annotation)
                  (fun _ => permissions annotation)
                  (fun _ => annotation) Like
     = ([OpenSidebarPanel "loginPrompt"], Returned tt).
Proof.
  cbv zeta. split; [reflexivity|].
  exact (vote_logged_out_opens_login_prompt
           (Sample.annotated ["vote:like:carol:1699990000"])
           Sample.anonymous Sample.clock Sample.succeeds
           "2023-11-14T22:13:20.000Z" Sample.succeeds Sample.succeeds
           (fun _ => false)
           (fun _ _ =>
              permissions (Sample.annotated ["vote:like:carol:1699990000"]))
           (fun _ =>
              permissions (Sample.annotated ["vote:like:carol:1699990000"]))
           (fun _ => Sample.annotated ["vote:like:carol:1699990000"])
           Like eq_refl).
Defined.

(** ** Flagging *)

Section Flagging.

Variable SidebarSettings : Type.
Variable serviceConfig : SidebarSettings -> option Service.

Let flaggingEnabled := ActionBar.flaggingEnabled SidebarSettings serviceConfig.
Let showFlagAction := ActionBar.showFlagAction SidebarSettings serviceConfig.

Lemma isExactlyFalse_spec (v : Js.Value) :
  Js.isExactlyFalse v = true <-> v = Js.Boolean false.
Proof.
  destruct v as [| |[|]| |]; cbn; split; congruence.
Qed.

Lemma flaggingEnabled_false (settings : SidebarSettings) :
  flaggingEnabled settings = false <->
  exists service,
    serviceConfig settings = Some service
    /\ allowFlagging service = Js.Boolean false.
Proof.
  unfold flaggingEnabled, ActionBar.flaggingEnabled.
  destruct (serviceConfig settings) as [service|].
  - destruct (Js.isExactlyFalse (allowFlagging service)) eqn:E.
    + apply isExactlyFalse_spec in E. split; eauto.
    + split; [discriminate|]. intros [service' [Hs Hf]].
      injection Hs as <-. apply isExactlyFalse_spec in Hf. congruence.
  - split; [discriminate|]. intros [service [Hs _]]. discriminate.
Qed.

(** C10.  Flagging is enabled when the settings have no service entry and
    when the entry leaves [allowFlagging] unset; it is disabled exactly
    when the entry sets [allowFlagging] to the boolean [false]. *)
Theorem flagging_enabled_unless_exactly_false (settings : SidebarSettings) :
  (serviceConfig settings = None -> flaggingEnabled settings = true)
  /\ (forall service,
        serviceConfig settings = Some service ->
        allowFlagging service = Js.Undefined ->
        flaggingEnabled settings = true)
  /\ (flaggingEnabled settings = false <->
      exists service,
        serviceConfig settings = Some service
        /\ allowFlagging service = Js.Boolean false).
Proof.
  split; [|split].
  - intros Hnone. apply not_false_iff_true.
    rewrite flaggingEnabled_false. intros [service [Hs _]]. congruence.
  - intros service Hs Hundef. apply not_false_iff_true.
    rewrite flaggingEnabled_false. intros [service' [Hs' Hf]]. congruence.
  - apply flaggingEnabled_false.
Qed.

(** C8.  The flag action is offered exactly when flagging is enabled, the
    viewer id is set (neither [null] nor empty) and it differs from the
    author of the annotation; so it is never offered to the author, nor
    to a visitor without a viewer id. *)
Theorem flag_offered_iff (settings : SidebarSettings) (store : Store)
    (annotation : Annotation) :
  (showFlagAction settings store annotation = true <->
   flaggingEnabled settings = true
   /\ (exists viewer, profile_userid store = Some viewer /\ viewer <> "")
   /\ profile_userid store <> Some (user annotation))
  /\ (profile_userid store = Some (user annotation) ->
      showFlagAction settings store annotation = false)
  /\ (profile_userid store = None ->
      showFlagAction settings store annotation = false).
Proof.
  assert (Hiff : showFlagAction settings store annotation = true <->
            flaggingEnabled settings = true
            /\ (exists viewer,
                  profile_userid store = Some viewer /\ viewer <> "")
            /\ profile_userid store <> Some (user annotation)).
  { unfold showFlagAction, ActionBar.showFlagAction. fold flaggingEnabled.
    rewrite !andb_true_iff, negb_true_iff, truthy_spec.
    rewrite <- not_true_iff_false, strictEq_spec. tauto. }
  split; [exact Hiff|].
  split; intros Hid; apply not_true_iff_false; rewrite Hiff.
  - intros [_ [_ Hne]]. contradiction.
  - intros [_ [[viewer [Hsome _]] _]]. congruence.
Qed.

End Flagging.

Lemma flagging_enabled_unless_exactly_false_witness :
  ActionBar.flaggingEnabled (list Service) Sample.firstService [] = true
  /\ ActionBar.flaggingEnabled (list Service) Sample.firstService
       [ {| allowFlagging := Js.Undefined |} ] = true
  /\ ActionBar.flaggingEnabled (list Service) Sample.firstService
       [ {| allowFlagging := Js.Boolean false |} ] = false.
Proof.
  split; [|split].
  - exact (proj1 (flagging_enabled_unless_exactly_false
                    (list Service) Sample.firstService []) eq_refl).
  - exact (proj1 (proj2 (flagging_enabled_unless_exactly_false
                           (list Service) Sample.firstService
                           [ {| allowFlagging := Js.Undefined |} ]))
                 {| allowFlagging := Js.Undefined |} eq_refl eq_refl).
  - apply (proj2 (proj2 (flagging_enabled_unless_exactly_false
                           (list Service) Sample.firstService
                           [ {| allowFlagging := Js.Boolean false |} ]))).
    exists {| allowFlagging := Js.Boolean false |}. split; reflexivity.
Defined.

Lemma flag_offered_iff_witness :
  ActionBar.showFlagAction (list Service) Sample.firstService []
    (Sample.viewedByBob []) (Sample.annotated []) = true
  /\ ActionBar.showFlagAction (list Service) Sample.firstService []
       (Sample.viewedBy "alice" []) (Sample.annotated []) = false
  /\ ActionBar.showFlagAction (list Service) Sample.firstService []
       Sample.anonymous (Sample.annotated []) = false.
Proof.
  split; [|split].
  - apply (proj1 (flag_offered_iff (list Service) Sample.firstService []
                    (Sample.viewedByBob []) (Sample.annotated []))).
    split; [reflexivity|]. split.
    + exists "bob". split; [reflexivity | discriminate].
    + discriminate.
  - exact (proj1 (proj2 (flag_offered_iff (list Service) Sample.firstService []
                           (Sample.viewedBy "alice" []) (Sample.annotated [])))
                 eq_refl).
  - exact (proj2 (proj2 (flag_offered_iff (list Service) Sample.firstService []
                           Sample.anonymous (Sample.annotated [])))
                 eq_refl).
Defined.

(** ** Reply scheme *)

Section ReplyDerivation.

Variables (target : Annotation) (store : Store).

Lemma nth_error_last (refs : list string) (d : string) :
  refs <> [] -> nth_error refs (List.length refs - 1) = Some (last refs d).
Proof.
  induction refs as [|r refs IH]; [congruence|]. intros _.
  destruct refs as [|r' refs]; [reflexivity|].
  specialize (IH ltac:(discriminate)).
  cbn [List.length Nat.sub] in IH |- *.
  rewrite Nat.sub_0_r in IH. exact IH.
Qed.

Lemma repliesTo_spec (a : Annotation) :
  Reply.repliesTo target a = true <->
  exists refs,
    references a = Some refs /\ refs <> [] /\ last refs "" = id target.
Proof.
  unfold Reply.repliesTo.
  destruct (references a) as [[|r refs]|].
  - split; [discriminate | intros [refs [Hs [Hne _]]]; congruence].
  - rewrite (nth_error_last (r :: refs) "") by discriminate.
    cbn [List.length Nat.ltb Nat.leb andb Js.strictEq].
    rewrite String.eqb_eq. split.
    + intros H. exists (r :: refs). repeat split; [discriminate | exact H].
    + intros [refs' [Hs [_ H]]]. injection Hs as <-. exact H.
  - split; [discriminate | intros [refs [Hs _]]; discriminate].
Qed.

Lemma hasVoteTag_spec (a : Annotation) :
  Reply.truthyBool (Reply.hasVoteTag a) = true <->
  exists l t, tags a = Some l /\ In t l /\ Js.startsWith t "vote:" = true.
Proof.
  unfold Reply.hasVoteTag. destruct (tags a) as [l|]; cbn.
  - rewrite existsb_exists. split.
    + intros [t [Hin Ht]]. exists l, t. auto.
    + intros [l' [t [Hs H]]]. injection Hs as <-. exists t. exact H.
  - split; [discriminate | intros [l [t [Hs _]]]; discriminate].
Qed.

Lemma carries_spec (tag : string) (r : Annotation) :
  Reply.carries tag r = true <-> exists l, tags r = Some l /\ In tag l.
Proof.
  unfold Reply.carries, Reply.tagsInclude. destruct (tags r) as [l|]; cbn.
  - rewrite includes_In. split; [eauto|].
    intros [l' [Hs H]]. injection Hs as <-. exact H.
  - split; [discriminate | intros [l [Hs _]]; discriminate].
Qed.

Lemma getVoteReplies_filter :
  Reply.getVoteReplies target store
  = filter (fun a => Reply.repliesTo target a
                     && Reply.truthyBool (Reply.hasVoteTag a))
           (Reply.allAnns store).
Proof. reflexivity. Qed.

(** The filter of the specification differs from the component's in the
    tag test only. *)
Lemma specVoteReply_eq (a : Annotation) :
  Reply.specVoteReply target a
  = Reply.repliesTo target a
    && (Reply.carries "vote:like" a || Reply.carries "vote:dislike" a).
Proof.
  unfold Reply.specVoteReply, Reply.repliesTo, Reply.carries,
    Reply.tagsInclude.
  destruct (references a) as [[|r refs]|]; [reflexivity| |reflexivity].
  rewrite (nth_error_last (r :: refs) "") by discriminate.
  cbn [List.length Nat.ltb Nat.leb andb Js.strictEq].
  now destruct (tags a).
Qed.

(** A reply that carries [vote:like] or [vote:dislike] has a tag that
    starts with [vote:]. *)
Lemma carries_hasVoteTag (tag : string) (a : Annotation) :
  Js.startsWith tag "vote:" = true ->
  Reply.carries tag a = true ->
  Reply.truthyBool (Reply.hasVoteTag a) = true.
Proof.
  intros Hp Hc. apply carries_spec in Hc as [l [Hs Hin]].
  apply hasVoteTag_spec. exists l, tag. auto.
Qed.

Lemma filter_filter_agree {A : Type} (p q q' : A -> bool) (l : list A) :
  (forall x, p x = true -> q x = q' x) ->
  filter p (filter q l) = filter p (filter q' l).
Proof.
  intros H. induction l as [|x l IH]; [reflexivity|].
  cbn [filter]. destruct (p x) eqn:E.
  - rewrite <- (H x E). destruct (q x); cbn [filter]; rewrite ?E; congruence.
  - destruct (q x), (q' x); cbn [filter]; rewrite ?E; exact IH.
Qed.

(** Counting the carriers of a vote tag over the component's vote replies
    or over the specification's gives the same number. *)
Lemma count_carriers (tag : string) :
  Js.startsWith tag "vote:" = true ->
  (tag = "vote:like" \/ tag = "vote:dislike") ->
  Js.countIf (Reply.carries tag) (Reply.voteReplies target store)
  = Js.countIf (Reply.carries tag)
               (filter (Reply.specVoteReply target) (Reply.allAnns store)).
Proof.
  intros Hp Htag. unfold Reply.voteReplies, Js.countIf.
  rewrite getVoteReplies_filter. f_equal.
  apply filter_filter_agree. intros a Ha.
  rewrite specVoteReply_eq, (carries_hasVoteTag tag a Hp Ha).
  destruct Htag as [-> | ->]; rewrite Ha; now rewrite ?orb_true_r.
Qed.

Lemma myVoteType_first (r : Annotation) (rest : list Annotation) :
  filter (fun r => Js.strictEq (profile_userid store) (user r))
         (Reply.voteReplies target store) = r :: rest ->
  Reply.myVoteType target store
  = Some (if Reply.carries "vote:like" r then Like else Dislike).
Proof.
  intros Hf. unfold Reply.myVoteType, Reply.myExistingVote.
  rewrite find_hd_filter. unfold Reply.userid. now rewrite Hf.
Qed.

(** What the component computes.  The vote replies are the loaded
    annotations whose references are non-empty and end at the target's id
    and that have a tag starting with [vote:].  The like and dislike
    counts are the
    numbers of vote replies that carry [vote:like] and [vote:dislike],
    which are also the numbers among the candidates that carry one of the
    two tags.  The viewer's vote is none when no vote reply is by the
    viewer; otherwise it follows the first vote reply by the viewer: like
    when that reply carries [vote:like], dislike when it carries
    [vote:dislike] and not [vote:like]. *)
Theorem reply_scheme_derivation :
  (forall a,
      In a (Reply.voteReplies target store) <->
      In a (Reply.allAnns store)
      /\ (exists refs,
            references a = Some refs /\ refs <> []
            /\ last refs "" = id target)
      /\ (exists l t,
            tags a = Some l /\ In t l /\ Js.startsWith t "vote:" = true))
  /\ Reply.likeCount target store
     = Js.countIf (Reply.carries "vote:like")
                  (filter (Reply.specVoteReply target) (Reply.allAnns store))
  /\ Reply.dislikeCount target store
     = Js.countIf (Reply.carries "vote:dislike")
                  (filter (Reply.specVoteReply target) (Reply.allAnns store))
  /\ ((forall r, In r (Reply.voteReplies target store) ->
                 profile_userid store <> Some (user r)) ->
      Reply.viewerVote target store = VoteNone)
  /\ (forall r rest l,
        filter (fun r => Js.strictEq (profile_userid store) (user r))
               (Reply.voteReplies target store) = r :: rest ->
        tags r = Some l ->
        (In "vote:like" l -> Reply.viewerVote target store = VoteLike)
        /\ (In "vote:dislike" l -> ~ In "vote:like" l ->
            Reply.viewerVote target store = VoteDislike)).
Proof.
  split; [|split; [|split; [|split]]].
  - intros a. unfold Reply.voteReplies. rewrite getVoteReplies_filter.
    rewrite filter_In, andb_true_iff, repliesTo_spec, hasVoteTag_spec.
    tauto.
  - apply (count_carriers "vote:like"); [reflexivity | now left].
  - apply (count_carriers "vote:dislike"); [reflexivity | now right].
  - intros Hnone.
    unfold Reply.viewerVote, Reply.myVoteType, Reply.myExistingVote.
    destruct (find _ _) as [r|] eqn:E; [|reflexivity].
    apply find_some in E as [Hin Hr].
    apply strictEq_spec in Hr. now apply Hnone in Hin.
  - intros r rest l Hf Hl. unfold Reply.viewerVote.
    rewrite (myVoteType_first r rest Hf).
    assert (Hc : Reply.carries "vote:like" r = Js.includes l "vote:like")
      by (unfold Reply.carries, Reply.tagsInclude; now rewrite Hl).
    rewrite Hc. split.
    + intros Hin. apply includes_In in Hin. now rewrite Hin.
    + intros _ Hnot.
      destruct (Js.includes l "vote:like") eqn:E; [|reflexivity].
      now apply includes_In in E.
Qed.

End ReplyDerivation.

Lemma reply_scheme_derivation_witness :
  let target := Sample.annotated ["biology"] in
  let mine := Sample.replyBy "bob" "r1" ["vote:like"; "user:bob"] in
  let theirs := Sample.replyBy "carol" "r2" ["vote:dislike"; "user:carol"] in
  let store :=
    Sample.viewedByBob [theirs; mine; Sample.annotated ["vote:like"]] in
  Reply.voteReplies target store = [theirs; mine]
  /\ Reply.likeCount target store = 1
  /\ Reply.dislikeCount target store = 1
  /\ Reply.viewerVote target store = VoteLike.
Proof.
  cbv zeta. split; [reflexivity|]. split; [reflexivity|]. split; [reflexivity|].
  refine (proj1 (proj2 (proj2 (proj2 (proj2
            (reply_scheme_derivation
               (Sample.annotated ["biology"])
               (Sample.viewedByBob
                  [Sample.replyBy "carol" "r2" ["vote:dislike"; "user:carol"];
                   Sample.replyBy "bob" "r1" ["vote:like"; "user:bob"];
                   Sample.annotated ["vote:like"]])))))
            (Sample.replyBy "bob" "r1" ["vote:like"; "user:bob"]) []
            ["vote:like"; "user:bob"] eq_refl eq_refl) _).
  now left.
Defined.

(** C5.  [getVoteReplies] tests [t.startsWith('vote:')], not the tags
    [vote:like] and [vote:dislike] that [onVote] writes and the counts
    look for.  A reply of [carol] whose only such tag is an inline marker
    carries neither of the two, yet it is a vote reply of the component:
    [carol] is shown as having voted dislike while the dislike count is
    zero, and her click on dislike deletes her reply. *)
Theorem vote_replies_differ_from_stated_filter :
  let target := Sample.annotated ["biology"] in
  let reply := Sample.replyBy "carol" "r1" ["vote:like:bob:1699990000"] in
  let store := Sample.viewedBy "carol" [reply] in
  Reply.voteReplies target store = [reply]
  /\ filter (Reply.specVoteReply target) (Reply.allAnns store) = []
  /\ Reply.voteReplies target store
     <> filter (Reply.specVoteReply target) (Reply.allAnns store)
  /\ Reply.viewerVote target store = VoteDislike
  /\ Reply.dislikeCount target store = 0
  /\ deletes (trace (Reply.onVote target store "2023-11-14T22:13:20.000Z"
                       Sample.succeeds Sample.succeeds Sample.neverPrivate
                       Sample.sharedWith Sample.privateTo Sample.fromData
                       Dislike))
     = [reply]
  /\ saves (trace (Reply.onVote target store "2023-11-14T22:13:20.000Z"
                     Sample.succeeds Sample.succeeds Sample.neverPrivate
                     Sample.sharedWith Sample.privateTo Sample.fromData
                     Dislike))
     = [].
Proof.
  cbv zeta. split; [reflexivity|]. split; [reflexivity|].
  split; [|repeat split].
  intros H. vm_compute in H. discriminate H.
Qed.

(** * Further properties of the inline scheme *)

Section MoreListFacts.

Context {A : Type}.
Implicit Types (p q : A -> bool) (l : list A).

Lemma countIf_ext p q l :
  (forall x, p x = q x) -> Js.countIf p l = Js.countIf q l.
Proof. intros H. unfold Js.countIf. now rewrite (filter_ext p q H). Qed.

Lemma countIf_filter p q l :
  Js.countIf p (filter q l) = Js.countIf (fun x => p x && q x) l.
Proof.
  unfold Js.countIf. induction l as [|x l IH]; [reflexivity|].
  cbn [filter]. destruct (q x); cbn [filter];
    destruct (p x); cbn [andb List.length]; congruence.
Qed.

(** Two tests that never hold together count separately. *)
Lemma countIf_disjoint p q l :
  (forall x, p x = true -> q x = false) ->
  Js.countIf p l + Js.countIf q l = Js.countIf (fun x => p x || q x) l.
Proof.
  intros H. unfold Js.countIf. induction l as [|x l IH]; [reflexivity|].
  cbn [filter]. destruct (p x) eqn:E.
  - rewrite (H x E). cbn [orb List.length]. lia.
  - destruct (q x); cbn [orb List.length]; lia.
Qed.

(** Filtering with a weaker test first does not change the result. *)
Lemma filter_filter_implied p q l :
  (forall x, q x = true -> p x = true) ->
  filter q (filter p l) = filter q l.
Proof.
  intros H. induction l as [|x l IH]; [reflexivity|].
  cbn [filter]. destruct (p x) eqn:E; cbn [filter].
  - now rewrite IH.
  - destruct (q x) eqn:Eq; [|exact IH].
    apply H in Eq. congruence.
Qed.

Lemma countIf_le_length p l : Js.countIf p l <= List.length l.
Proof. apply filter_length_le. Qed.

End MoreListFacts.

Section InlineClicks.

Variables (annotation : Annotation) (store : Store) (now : N).
Variable saveResult : Annotation -> ServiceResult.

Let u : string := Js.template (Inline.userId store).
Let kept : list string :=
  filter (fun t => negb (Inline.matchesViewer u t)) (Inline.tags annotation).

Lemma matchesViewer_isVoteMarker (t : string) :
  Inline.matchesViewer u t = true -> Inline.isVoteMarker t = true.
Proof.
  unfold Inline.matchesViewer, Inline.isVoteMarker.
  rewrite !orb_true_iff. intros [H|H]; [left|right].
  - exact (InlineFacts.viewer_like_is_like u t H).
  - exact (InlineFacts.viewer_dislike_is_dislike u t H).
Qed.

Lemma markerFor_matchesViewer (type : VoteType) (ts : string) :
  Inline.matchesViewer u (Inline.markerFor type u ts) = true.
Proof.
  apply InlineFacts.marker_matchesViewer,
    InlineFacts.markerFor_isVoteMarkerOf.
Qed.

(** The tag list of the next render, in terms of [alreadyVotedSameType]. *)
Lemma tags_rerender (type : VoteType) :
  Inline.tags (Inline.rerender annotation store now type)
  = (kept ++ if Inline.alreadyVotedSameType annotation store type
             then []
             else [Inline.markerFor type u
                     (Js.numberToString (Inline.timestamp now))])%list.
Proof.
  unfold Inline.rerender, Inline.tags. cbn [tags withTags].
  now rewrite InlineFacts.newTags_eq.
Qed.

Lemma kept_not_pressed (type : VoteType) :
  existsb (fun t => Js.startsWith t (Inline.viewerPrefix type u)) kept
  = false.
Proof.
  apply existsb_false_countIf, countIf_zero. intros t Hin.
  apply (kept_no_match annotation store) in Hin.
  apply InlineFacts.matchesViewer_false in Hin as [Hl Hd].
  now destruct type.
Qed.

(** The [pressed] state of the two buttons in the next render. *)
Lemma pressed_after_click (type shown : VoteType) :
  Inline.alreadyVotedSameType
    (Inline.rerender annotation store now type) store shown
  = match type, shown with
    | Like, Like | Dislike, Dislike =>
        negb (Inline.alreadyVotedSameType annotation store type)
    | _, _ => false
    end.
Proof.
  assert (Hshown :
            Inline.alreadyVotedSameType
              (Inline.rerender annotation store now type) store shown
            = existsb (fun t => Js.startsWith t (Inline.viewerPrefix shown u))
                (Inline.tags (Inline.rerender annotation store now type))).
  { destruct shown; cbn [Inline.alreadyVotedSameType];
      [apply InlineFacts.liked_existsb | apply InlineFacts.disliked_existsb]. }
  rewrite Hshown, tags_rerender, existsb_app, kept_not_pressed.
  cbn [orb].
  destruct (Inline.alreadyVotedSameType annotation store type);
    cbn [existsb negb]; [now destruct type, shown|].
  destruct type, shown; cbn [orb]; rewrite ?orb_false_r;
    try reflexivity.
  - apply InlineFacts.markerFor_like.
  - apply InlineFacts.markerFor_dislike.
Qed.

(** X1.  A click of a logged-in viewer issues one save, and the
    annotation it hands to [save] derives the requested vote if the viewer
    had not voted that type, and no vote if they had; on it the two
    buttons are never both pressed, also when they were before. *)
Theorem vote_after_click (type : VoteType) :
  isLoggedIn store = true ->
  exists saved,
    saves (trace (Inline.handleVote annotation store now saveResult type))
    = [saved]
    /\ Inline.viewerVote saved store
       = (if Inline.alreadyVotedSameType annotation store type
          then VoteNone else voteOf type)
    /\ Js.truthy (Inline.userLikeTag saved store)
       && Js.truthy (Inline.userDislikeTag saved store) = false.
Proof.
  intros Hin. exists (Inline.rerender annotation store now type).
  split; [exact (InlineFacts.handleVote_saves _ _ _ _ _ Hin)|].
  set (a' := Inline.rerender annotation store now type).
  assert (Hl : Js.truthy (Inline.userLikeTag a' store)
               = Inline.alreadyVotedSameType a' store Like) by reflexivity.
  assert (Hd : Js.truthy (Inline.userDislikeTag a' store)
               = Inline.alreadyVotedSameType a' store Dislike)
    by reflexivity.
  unfold Inline.viewerVote. rewrite Hl, Hd. unfold a'.
  rewrite !pressed_after_click.
  destruct type; destruct (Inline.alreadyVotedSameType annotation store _);
    split; reflexivity.
Qed.

(** X2.  A click leaves every tag that does not start with
    [vote:like:{uid}] or [vote:dislike:{uid}] in the list and in its
    place; in particular the tags that are no vote markers stay as they
    are. *)
Theorem click_keeps_other_tags (type : VoteType) :
  filter (fun t => negb (Inline.matchesViewer u t))
         (Inline.newTags annotation store now type)
  = filter (fun t => negb (Inline.matchesViewer u t))
           (Inline.tags annotation)
  /\ filter (fun t => negb (Inline.isVoteMarker t))
            (Inline.newTags annotation store now type)
     = filter (fun t => negb (Inline.isVoteMarker t))
              (Inline.tags annotation).
Proof.
  assert (Htail : forall q : string -> bool,
            (forall t, q t = true -> negb (Inline.matchesViewer u t) = true) ->
            filter q (Inline.newTags annotation store now type)
            = filter q (Inline.tags annotation)).
  { intros q Hq. rewrite InlineFacts.newTags_eq. fold u kept.
    rewrite filter_app. unfold kept.
    rewrite (filter_filter_implied _ q _ Hq).
    match goal with |- context [if ?b then _ else _] => destruct b end;
      cbn [filter]; [apply app_nil_r|].
    destruct (q (Inline.markerFor _ _ _)) eqn:E; [|apply app_nil_r].
    apply Hq in E. now rewrite markerFor_matchesViewer in E. }
  split; apply Htail; [auto|].
  intros t Ht. apply negb_true_iff in Ht. apply negb_true_iff.
  destruct (Inline.matchesViewer u t) eqn:E; [|reflexivity].
  apply matchesViewer_isVoteMarker in E. congruence.
Qed.

(** X3.  No tag counts as a like and as a dislike: the two counts add up
    to the number of vote markers, hence to no more than the number of
    tags. *)
Theorem tallies_partition_markers :
  Inline.likeCount annotation + Inline.dislikeCount annotation
  = Js.countIf Inline.isVoteMarker (Inline.tags annotation)
  /\ Inline.likeCount annotation + Inline.dislikeCount annotation
     <= List.length (Inline.tags annotation).
Proof.
  assert (H : Inline.likeCount annotation + Inline.dislikeCount annotation
              = Js.countIf Inline.isVoteMarker (Inline.tags annotation))
    by exact (countIf_disjoint _ _ _ InlineFacts.like_not_dislike).
  split; [exact H|]. rewrite H. apply countIf_le_length.
Qed.

(** What a tag that starts with [vote:{type}:] and is dropped by the
    click starts with. *)
Lemma counted_and_dropped (type : VoteType) (t : string) :
  Js.startsWith t (Inline.typePrefix type) && Inline.matchesViewer u t
  = Js.startsWith t (Inline.viewerPrefix type u).
Proof.
  unfold Inline.matchesViewer.
  destruct (Js.startsWith t ("vote:like:" ++ u)) eqn:El;
    destruct (Js.startsWith t ("vote:dislike:" ++ u)) eqn:Ed;
    pose proof (InlineFacts.viewer_like_is_like u t) as Hl;
    pose proof (InlineFacts.viewer_dislike_is_dislike u t) as Hd;
    pose proof (InlineFacts.like_not_dislike t) as Hld;
    pose proof (InlineFacts.dislike_not_like t) as Hdl;
    destruct type; cbn [Inline.typePrefix orb];
    change (Inline.viewerPrefix Like u) with ("vote:like:" ++ u);
    change (Inline.viewerPrefix Dislike u) with ("vote:dislike:" ++ u);
    rewrite ?El, ?Ed, ?andb_false_r, ?andb_true_r; auto.
Qed.

Lemma tally_split (type : VoteType) :
  Inline.tally type annotation
  = Js.countIf (fun t => Js.startsWith t (Inline.typePrefix type)) kept
    + Js.countIf (fun t => Js.startsWith t (Inline.viewerPrefix type u))
                 (Inline.tags annotation).
Proof.
  assert (Ht : Inline.tally type annotation
               = Js.countIf (fun t => Js.startsWith t (Inline.typePrefix type))
                            (Inline.tags annotation))
    by now destruct type.
  rewrite Ht, (countIf_split _ (Inline.matchesViewer u)), countIf_filter.
  fold kept. rewrite Nat.add_comm. f_equal.
  apply countIf_ext, counted_and_dropped.
Qed.

(** X4.  The counts derived from the annotation that a click of a
    logged-in viewer hands to [save], for every tag list: the count of the
    requested type is lower by the number of tags that start with
    [vote:{type}:{uid}] and higher by one unless the click retracts a
    vote; the other count is lower by the number of tags that start with
    [vote:{other}:{uid}]. *)
Theorem counts_after_click (type : VoteType) :
  isLoggedIn store = true ->
  exists saved,
    saves (trace (Inline.handleVote annotation store now saveResult type))
    = [saved]
    /\ Inline.tally type saved
       + Js.countIf (fun t => Js.startsWith t (Inline.viewerPrefix type u))
                    (Inline.tags annotation)
       = Inline.tally type annotation
         + (if Inline.alreadyVotedSameType annotation store type
            then 0 else 1)
    /\ Inline.tally (Inline.otherType type) saved
       + Js.countIf
           (fun t => Js.startsWith t
                       (Inline.viewerPrefix (Inline.otherType type) u))
           (Inline.tags annotation)
       = Inline.tally (Inline.otherType type) annotation.
Proof.
  intros Hin. exists (Inline.rerender annotation store now type).
  split; [exact (InlineFacts.handleVote_saves _ _ _ _ _ Hin)|].
  set (a' := Inline.rerender annotation store now type).
  assert (Hnew : forall counted,
            Inline.tally counted a'
            = Js.countIf
                (fun t => Js.startsWith t (Inline.typePrefix counted)) kept
              + if Inline.alreadyVotedSameType annotation store type then 0
                else if Js.startsWith
                          (Inline.markerFor type u
                             (Js.numberToString (Inline.timestamp now)))
                          (Inline.typePrefix counted)
                     then 1 else 0).
  { intros counted.
    assert (Ht : Inline.tally counted a'
                 = Js.countIf
                     (fun t => Js.startsWith t (Inline.typePrefix counted))
                     (Inline.tags a'))
      by now destruct counted.
    rewrite Ht. unfold a'. rewrite tags_rerender. fold u kept.
    rewrite countIf_app. f_equal.
    destruct (Inline.alreadyVotedSameType annotation store type);
      [reflexivity|].
    unfold Js.countIf. cbn [filter].
    now destruct (Js.startsWith _ (Inline.typePrefix counted)). }
  destruct (markerFor_prefix store type
              (Js.numberToString (Inline.timestamp now))) as [Pl Pd].
  fold u in Pl, Pd.
  rewrite !Hnew, !tally_split.
  destruct type; cbn [Inline.typePrefix Inline.otherType];
    rewrite ?Pl, ?Pd;
    destruct (Inline.alreadyVotedSameType annotation store _); split; lia.
Qed.

End InlineClicks.

Lemma vote_after_click_witness :
  let annotation :=
    Sample.annotated ["vote:like:bob:1699990000";
                      "vote:dislike:bob:1699990001"; "biology"] in
  let store := Sample.viewedByBob [] in
  isLoggedIn store = true
  /\ Inline.alreadyVotedSameType annotation store Dislike = true
  /\ exists saved,
       saves (trace (Inline.handleVote annotation store Sample.clock
                                       Sample.succeeds Dislike))
       = [saved]
       /\ Inline.viewerVote saved store = VoteNone
       /\ Js.truthy (Inline.userLikeTag saved store)
          && Js.truthy (Inline.userDislikeTag saved store) = false.
Proof.
  cbv zeta. split; [reflexivity|]. split; [reflexivity|].
  exact (vote_after_click
           (Sample.annotated ["vote:like:bob:1699990000";
                              "vote:dislike:bob:1699990001"; "biology"])
           (Sample.viewedByBob []) Sample.clock Sample.succeeds Dislike
           eq_refl).
Defined.

Lemma counts_after_click_witness :
  let annotation :=
    Sample.annotated ["vote:like:bob:1699990000";
                      "vote:dislike:bob:1699990001";
                      "vote:like:carol:1699990002"] in
  let store := Sample.viewedByBob [] in
  isLoggedIn store = true
  /\ Inline.likeCount annotation = 2
  /\ Inline.dislikeCount annotation = 1
  /\ exists saved,
       saves (trace (Inline.handleVote annotation store Sample.clock
                                       Sample.succeeds Dislike))
       = [saved]
       /\ Inline.dislikeCount saved + 1 = 1 + 0
       /\ Inline.likeCount saved + 1 = 2.
Proof.
  cbv zeta. split; [reflexivity|]. split; [reflexivity|].
  split; [reflexivity|].
  exact (counts_after_click
           (Sample.annotated ["vote:like:bob:1699990000";
                              "vote:dislike:bob:1699990001";
                              "vote:like:carol:1699990002"])
           (Sample.viewedByBob []) Sample.clock Sample.succeeds Dislike
           eq_refl).
Defined.

Section InlineRoundTrip.

Variables (annotation : Annotation) (store : Store).
Variables (now later : N).
Variable saveResult : Annotation -> ServiceResult.

(** X5.  Voting and then retracting is a round trip: when no tag of the
    list starts with [vote:like:{uid}] or [vote:dislike:{uid}], a click of
    the logged-in viewer saves the list with one marker appended, and a
    second click on the same button, on the annotation the first one
    saved, saves the tag list the annotation started with. *)
Theorem vote_then_retract_restores_tags (type : VoteType) :
  isLoggedIn store = true ->
  Js.countIf (Inline.matchesViewer (Js.template (Inline.userId store)))
             (Inline.tags annotation) = 0 ->
  exists voted restored,
    saves (trace (Inline.handleVote annotation store now saveResult type))
    = [voted]
    /\ tags voted
       = Some (Inline.tags annotation
               ++ [Inline.markerFor type (Js.template (Inline.userId store))
                     (Js.numberToString (Inline.timestamp now))])%list
    /\ saves (trace (Inline.handleVote voted store later saveResult type))
       = [restored]
    /\ tags restored = Some (Inline.tags annotation).
Proof.
  intros Hin Hzero.
  assert (Hnone : Inline.viewerVote annotation store = VoteNone)
    by (apply viewerVote_none, countIf_zero; exact Hzero).
  assert (Hfresh : Inline.alreadyVotedSameType annotation store type = false).
  { unfold Inline.viewerVote in Hnone.
    destruct (Js.truthy (Inline.userLikeTag annotation store)) eqn:El;
      [discriminate|].
    destruct (Js.truthy (Inline.userDislikeTag annotation store)) eqn:Ed;
      [discriminate|].
    now destruct type. }
  set (voted := Inline.rerender annotation store now type).
  assert (Hagain : Inline.alreadyVotedSameType voted store type = true).
  { unfold voted. rewrite pressed_after_click, Hfresh. now destruct type. }
  assert (Hv : Inline.tags voted
               = (Inline.tags annotation
                  ++ [Inline.markerFor type
                        (Js.template (Inline.userId store))
                        (Js.numberToString (Inline.timestamp now))])%list).
  { unfold voted. rewrite tags_rerender, Hfresh.
    now rewrite (kept_all annotation store Hnone). }
  assert (Hr : Inline.tags (Inline.rerender voted store later type)
               = Inline.tags annotation).
  { rewrite tags_rerender, Hagain, app_nil_r, Hv, filter_app.
    rewrite (kept_all annotation store Hnone).
    cbn [filter]. rewrite markerFor_matchesViewer. cbn [negb].
    apply app_nil_r. }
  exists voted, (Inline.rerender voted store later type).
  split; [exact (InlineFacts.handleVote_saves _ _ _ _ _ Hin)|].
  split; [exact (f_equal Some Hv)|].
  split; [exact (InlineFacts.handleVote_saves _ _ _ _ _ Hin)|].
  exact (f_equal Some Hr).
Qed.

End InlineRoundTrip.

Lemma vote_then_retract_restores_tags_witness :
  let annotation :=
    Sample.annotated ["biology"; "vote:dislike:carol:1699990050"] in
  let store := Sample.viewedByBob [] in
  isLoggedIn store = true
  /\ Js.countIf (Inline.matchesViewer "bob") (Inline.tags annotation) = 0
  /\ exists voted restored,
       saves (trace (Inline.handleVote annotation store Sample.clock
                                       Sample.succeeds Like))
       = [voted]
       /\ tags voted
          = Some ["biology"; "vote:dislike:carol:1699990050";
                  "vote:like:bob:1700000000"]
       /\ saves (trace (Inline.handleVote voted store
                                          (Sample.clock + 60000)
                                          Sample.succeeds Like))
          = [restored]
       /\ tags restored
          = Some ["biology"; "vote:dislike:carol:1699990050"].
Proof.
  cbv zeta. split; [reflexivity|]. split; [reflexivity|].
  exact (vote_then_retract_restores_tags
           (Sample.annotated ["biology"; "vote:dislike:carol:1699990050"])
           (Sample.viewedByBob []) Sample.clock (Sample.clock + 60000)
           Sample.succeeds Like eq_refl eq_refl).
Defined.

(** * Further properties of the vote handlers *)

Section VoteHandlers.

Variables (annotation : Annotation) (store : Store).
Variable now : N.
Variable saveTags : Annotation -> ServiceResult.
Variable isoNow : string.
Variables deleteResult saveResult : Annotation -> ServiceResult.
Variable isPrivate : Permissions -> bool.
Variable sharedPermissions : option string -> string -> Permissions.
Variable privatePermissions : option string -> Permissions.
Variable annotationFromData : AnnotationData -> Annotation.

Let onVote : VoteType -> Handler unit :=
  Reply.onVote annotation store isoNow deleteResult saveResult isPrivate
               sharedPermissions privatePermissions annotationFromData.
Let reply : VoteType -> Annotation :=
  Reply.replyAnn annotation store isoNow isPrivate sharedPermissions
                 privatePermissions annotationFromData.

(** The message [onVote] shows for a rejection. *)
Let shown (message : option string) : string :=
  match message with
  | Some message => message
  | None => "Failed to record vote"
  end.

(** The run of [onVote] for a logged-in viewer, by the viewer's existing
    vote reply and the way the service calls end. *)
Lemma onVote_run (type : VoteType) :
  isLoggedIn store = true ->
  onVote type
  = match Reply.myExistingVote annotation store with
    | Some existing =>
        match deleteResult existing with
        | Rejected m => ([Delete existing; ToastError (shown m)], Returned tt)
        | Resolved =>
            if Reply.sameType (Reply.myVoteType annotation store) type
            then ([Delete existing], Returned tt)
            else
              match saveResult (reply type) with
              | Resolved => ([Delete existing; Save (reply type)], Returned tt)
              | Rejected m =>
                  ([Delete existing; Save (reply type);
                    ToastError (shown m)], Returned tt)
              end
        end
    | None =>
        match saveResult (reply type) with
        | Resolved => ([Save (reply type)], Returned tt)
        | Rejected m =>
            ([Save (reply type); ToastError (shown m)], Returned tt)
        end
    end.
Proof.
  intros Hin. unfold onVote, Reply.onVote. rewrite Hin. cbn [negb].
  fold (reply type).
  destruct (Reply.myExistingVote annotation store) as [existing|].
  - destruct (Reply.sameType _ type);
      destruct (deleteResult existing) as [|m];
      try destruct (saveResult (reply type)) as [|m'];
      try destruct m; try destruct m'; reflexivity.
  - destruct (saveResult (reply type)) as [|[m|]]; reflexivity.
Qed.

Lemma onVote_logged_out (type : VoteType) :
  isLoggedIn store = false ->
  onVote type = ([OpenSidebarPanel "loginPrompt"], Returned tt).
Proof.
  intros Hout. unfold onVote, Reply.onVote. now rewrite Hout.
Qed.





(** X9.  Toggle in the reply scheme: when the viewer's vote reply is of
    the requested type, [onVote] deletes that reply and creates
    nothing. *)
Theorem onVote_same_type_only_deletes (type : VoteType) :
  isLoggedIn store = true ->
  Reply.myVoteType annotation store = Some type ->
  exists existing,
    Reply.myExistingVote annotation store = Some existing
    /\ deletes (trace (onVote type)) = [existing]
    /\ saves (trace (onVote type)) = [].
Proof.
  intros Hin Hty. rewrite (onVote_run type Hin).
  unfold Reply.myVoteType in Hty |- *.
  destruct (Reply.myExistingVote annotation store) as [existing|];
    [|discriminate].
  exists existing. split; [reflexivity|].
  rewrite Hty.
  assert (Hs : Reply.sameType (Some type) type = true) by now destruct type.
  rewrite Hs. now destruct (deleteResult existing).
Qed.

(** X10.  Switch in the reply scheme: when the viewer's vote reply is of
    the other type, [onVote] first deletes it; the new reply is saved only
    if that delete resolved, and a rejected delete is reported with the
    error's message, or with [Failed to record vote] when it has none. *)
Theorem onVote_other_type_deletes_first (type : VoteType) :
  isLoggedIn store = true ->
  Reply.myVoteType annotation store = Some (Inline.otherType type) ->
  exists existing rest,
    Reply.myExistingVote annotation store = Some existing
    /\ trace (onVote type) = Delete existing :: rest
    /\ deletes rest = []
    /\ saves rest = match deleteResult existing with
                    | Resolved => [reply type]
                    | Rejected _ => []
                    end
    /\ (forall m, deleteResult existing = Rejected m ->
                  rest = [ToastError (shown m)]).
Proof.
  intros Hin Hty. rewrite (onVote_run type Hin).
  unfold Reply.myVoteType in Hty |- *.
  destruct (Reply.myExistingVote annotation store) as [existing|];
    [|discriminate].
  rewrite Hty.
  assert (Hs : Reply.sameType (Some (Inline.otherType type)) type = false)
    by now destruct type.
  rewrite Hs. exists existing.
  destruct (deleteResult existing) as [|m];
    [destruct (saveResult (reply type)) as [|m']|];
    eexists; (split; [reflexivity|]); (split; [reflexivity|]);
    repeat split; try reflexivity; intros m0 H; congruence.
Qed.

End VoteHandlers.



Lemma onVote_same_type_only_deletes_witness :
  let annotation := Sample.annotated ["biology"] in
  let mine := Sample.replyBy "bob" "r1" ["vote:like"; "user:bob"] in
  let store := Sample.viewedByBob [mine] in
  isLoggedIn store = true
  /\ Reply.myVoteType annotation store = Some Like
  /\ exists existing,
       Reply.myExistingVote annotation store = Some existing
       /\ deletes (trace (Reply.onVote annotation store
                            "2023-11-14T22:13:20.000Z"
                            Sample.succeeds Sample.succeeds (fun _ => false)
                            (fun _ _ => permissions annotation)
                            (fun _ => permissions annotation)
                            (fun _ => annotation) Like)) = [existing]
       /\ saves (trace (Reply.onVote annotation store
                          "2023-11-14T22:13:20.000Z"
                          Sample.succeeds Sample.succeeds (fun _ => false)
                          (fun _ _ => permissions annotation)
                          (fun _ => permissions annotation)
                          (fun _ => annotation) Like)) = [].
Proof.
  cbv zeta. split; [reflexivity|]. split; [reflexivity|].
  exact (onVote_same_type_only_deletes
           (Sample.annotated ["biology"])
           (Sample.viewedByBob
              [Sample.replyBy "bob" "r1" ["vote:like"; "user:bob"]])
           "2023-11-14T22:13:20.000Z"
           Sample.succeeds Sample.succeeds (fun _ => false)
           (fun _ _ => permissions (Sample.annotated ["biology"]))
           (fun _ => permissions (Sample.annotated ["biology"]))
           (fun _ => Sample.annotated ["biology"]) Like eq_refl eq_refl).
Defined.

Lemma onVote_other_type_deletes_first_witness :
  let annotation := Sample.annotated ["biology"] in
  let mine := Sample.replyBy "bob" "r1" ["vote:dislike"; "user:bob"] in
  let store := Sample.viewedByBob [mine] in
  isLoggedIn store = true
  /\ Reply.myVoteType annotation store = Some Dislike
  /\ exists existing rest,
       Reply.myExistingVote annotation store = Some existing
       /\ trace (Reply.onVote annotation store "2023-11-14T22:13:20.000Z"
                   (fun _ => Rejected None) Sample.succeeds (fun _ => false)
                   (fun _ _ => permissions annotation)
                   (fun _ => permissions annotation)
                   (fun _ => annotation) Like)
          = Delete existing :: rest
       /\ rest = [ToastError "Failed to record vote"].
Proof.
  cbv zeta. split; [reflexivity|]. split; [reflexivity|].
  destruct (onVote_other_type_deletes_first
              (Sample.annotated ["biology"])
              (Sample.viewedByBob
                 [Sample.replyBy "bob" "r1" ["vote:dislike"; "user:bob"]])
              "2023-11-14T22:13:20.000Z"
              (fun _ => Rejected None) Sample.succeeds (fun _ => false)
              (fun _ _ => permissions (Sample.annotated ["biology"]))
              (fun _ => permissions (Sample.annotated ["biology"]))
              (fun _ => Sample.annotated ["biology"]) Like eq_refl eq_refl)
    as [existing [rest [He [Ht [_ [_ Hr]]]]]].
  exists existing, rest. split; [exact He|]. split; [exact Ht|].
  exact (Hr None eq_refl).
Defined.

(** * Further properties of the reply scheme *)

Section ReplyTargets.

Variables (target : Annotation) (store : Store).

(** X11.  A vote reply is never offered for voting itself: every
    annotation that [getVoteReplies] returns is a reply and carries a
    [vote:] tag, so [shouldShowVoting] is false for it. *)
Theorem vote_replies_are_no_vote_targets (a : Annotation) :
  In a (Reply.getVoteReplies target store) ->
  Reply.isReply a = true
  /\ Reply.isVoteAnnotation a = Some true
  /\ Reply.shouldShowVoting a = false.
Proof.
  rewrite getVoteReplies_filter, filter_In, andb_true_iff.
  intros [_ [Hrefs Htag]].
  assert (Hreply : Reply.isReply a = true).
  { unfold Reply.repliesTo in Hrefs. unfold Reply.isReply.
    destruct (references a) as [refs|]; [|discriminate].
    now apply andb_true_iff in Hrefs. }
  assert (Hvote : Reply.isVoteAnnotation a = Some true).
  { unfold Reply.isVoteAnnotation.
    destruct (Reply.hasVoteTag a) as [[|]|]; try discriminate.
    reflexivity. }
  split; [exact Hreply|]. split; [exact Hvote|].
  unfold Reply.shouldShowVoting. now rewrite Hreply.
Qed.

(** X12.  When no loaded annotation is a reply whose references end at
    the target (in particular when the store exposes no annotations),
    there are no vote replies: both counts are zero and the viewer has no
    vote. *)
Theorem no_replies_no_votes :
  (forall a, In a (Reply.allAnns store) -> Reply.repliesTo target a = false) ->
  Reply.voteReplies target store = []
  /\ Reply.likeCount target store = 0
  /\ Reply.dislikeCount target store = 0
  /\ Reply.viewerVote target store = VoteNone.
Proof.
  intros Hnone.
  assert (Hempty : Reply.voteReplies target store = []).
  { unfold Reply.voteReplies. rewrite getVoteReplies_filter.
    apply length_zero_iff_nil. apply countIf_zero. intros a Ha.
    now rewrite (Hnone a Ha). }
  unfold Reply.likeCount, Reply.dislikeCount, Reply.viewerVote,
    Reply.myVoteType, Reply.myExistingVote.
  rewrite Hempty. repeat split; reflexivity.
Qed.

End ReplyTargets.

Lemma vote_replies_are_no_vote_targets_witness :
  let target := Sample.annotated ["biology"] in
  let reply := Sample.replyBy "carol" "r2" ["vote:dislike"; "user:carol"] in
  let store := Sample.viewedByBob [reply] in
  In reply (Reply.getVoteReplies target store)
  /\ Reply.isReply reply = true
  /\ Reply.isVoteAnnotation reply = Some true
  /\ Reply.shouldShowVoting reply = false.
Proof.
  cbv zeta. split; [now left|].
  apply (vote_replies_are_no_vote_targets
           (Sample.annotated ["biology"])
           (Sample.viewedByBob
              [Sample.replyBy "carol" "r2" ["vote:dislike"; "user:carol"]])).
  now left.
Defined.

Lemma no_replies_no_votes_witness :
  let target := Sample.annotated ["biology"] in
  let store :=
    {| profile_userid := Some "bob"; isLoggedIn := true;
       allAnnotations := None; annotations := None |} in
  Reply.allAnns store = []
  /\ Reply.voteReplies target store = []
  /\ Reply.likeCount target store = 0
  /\ Reply.dislikeCount target store = 0
  /\ Reply.viewerVote target store = VoteNone.
Proof.
  cbv zeta. split; [reflexivity|].
  apply (no_replies_no_votes (Sample.annotated ["biology"])
           {| profile_userid := Some "bob"; isLoggedIn := true;
              allAnnotations := None; annotations := None |}).
  intros a [].
Defined.

Section ReplyRoundTrip.

Variables (annotation : Annotation) (store : Store).
Variable isoNow : string.
Variable isPrivate : Permissions -> bool.
Variable sharedPermissions : option string -> string -> Permissions.
Variable privatePermissions : option string -> Permissions.
Variable annotationFromData : AnnotationData -> Annotation.

Let reply : VoteType -> Annotation :=
  Reply.replyAnn annotation store isoNow isPrivate sharedPermissions
                 privatePermissions annotationFromData.

(** [annotationFromData] keeps the references and tags it is given, and
    the annotation it builds is the viewer's. *)
Hypothesis keeps_references :
  forall d, references (annotationFromData d) = Some (data_references d).
Hypothesis keeps_tags :
  forall d, tags (annotationFromData d) = Some (data_tags d).
Hypothesis sets_user :
  forall d, profile_userid store = Some (user (annotationFromData d)).

Lemma reply_repliesTo (type : VoteType) :
  Reply.repliesTo annotation (reply type) = true.
Proof.
  unfold Reply.repliesTo, reply, Reply.replyAnn.
  rewrite keeps_references. cbn [data_references].
  set (refs := match references annotation with
               | Some refs => refs
               | None => []
               end).
  rewrite (nth_error_last (refs ++ [id annotation]) "")
    by (intros H; now apply app_eq_nil in H as [_ H]).
  rewrite last_last, length_app, Nat.add_comm.
  cbn [List.length Nat.add Nat.ltb Nat.leb andb Js.strictEq].
  apply String.eqb_refl.
Qed.

Lemma reply_carries (type : VoteType) (tag : string) :
  Reply.carries tag (reply type)
  = Js.includes (Reply.voteTags store isoNow type) tag.
Proof.
  unfold Reply.carries, Reply.tagsInclude, reply, Reply.replyAnn.
  now rewrite keeps_tags.
Qed.

Lemma reply_carries_like (type : VoteType) :
  Reply.carries "vote:like" (reply type)
  = match type with Like => true | Dislike => false end.
Proof. rewrite reply_carries. now destruct type. Qed.

Lemma reply_carries_dislike (type : VoteType) :
  Reply.carries "vote:dislike" (reply type)
  = match type with Like => false | Dislike => true end.
Proof. rewrite reply_carries. now destruct type. Qed.

Lemma reply_hasVoteTag (type : VoteType) :
  Reply.truthyBool (Reply.hasVoteTag (reply type)) = true.
Proof.
  unfold Reply.hasVoteTag, reply, Reply.replyAnn. rewrite keeps_tags.
  now destruct type.
Qed.

Lemma voteReplies_withLoaded (type : VoteType) :
  Reply.voteReplies annotation (withLoaded store (reply type))
  = (Reply.voteReplies annotation store ++ [reply type])%list.
Proof.
  unfold Reply.voteReplies. rewrite !getVoteReplies_filter.
  change (Reply.allAnns (withLoaded store (reply type)))
    with (Reply.allAnns store ++ [reply type])%list.
  rewrite filter_app. cbn [filter].
  now rewrite reply_repliesTo, reply_hasVoteTag.
Qed.

(** X13.  What [onVote] creates is read back as the vote it records: once
    the new reply is loaded it is a vote reply of the annotation, the
    count of the requested type is one higher and the other count is
    unchanged; and a viewer who had no vote reply now has the requested
    vote. *)
Theorem created_reply_is_read_back (type : VoteType) :
  let store' := withLoaded store (reply type) in
  In (reply type) (Reply.voteReplies annotation store')
  /\ Reply.likeCount annotation store'
     = Reply.likeCount annotation store
       + match type with Like => 1 | Dislike => 0 end
  /\ Reply.dislikeCount annotation store'
     = Reply.dislikeCount annotation store
       + match type with Like => 0 | Dislike => 1 end
  /\ (Reply.myExistingVote annotation store = None ->
      Reply.viewerVote annotation store' = voteOf type).
Proof.
  intros store'. unfold store'.
  split; [|split; [|split]].
  - rewrite voteReplies_withLoaded. apply in_or_app. right. now left.
  - unfold Reply.likeCount. rewrite voteReplies_withLoaded, countIf_app.
    f_equal. unfold Js.countIf. cbn [filter].
    fold (Reply.carries "vote:like" (reply type)).
    rewrite reply_carries_like. now destruct type.
  - unfold Reply.dislikeCount. rewrite voteReplies_withLoaded, countIf_app.
    f_equal. unfold Js.countIf. cbn [filter].
    fold (Reply.carries "vote:dislike" (reply type)).
    rewrite reply_carries_dislike. now destruct type.
  - intros Hnone. unfold Reply.viewerVote.
    rewrite (myVoteType_first annotation (withLoaded store (reply type))
               (reply type) []).
    + rewrite reply_carries_like. now destruct type.
    + rewrite voteReplies_withLoaded, filter_app.
      change (profile_userid (withLoaded store (reply type)))
        with (profile_userid store).
      assert (Hold : filter
                       (fun r => Js.strictEq (profile_userid store) (user r))
                       (Reply.voteReplies annotation store) = []).
      { apply length_zero_iff_nil. apply countIf_zero.
        exact (find_none _ _ Hnone). }
      rewrite Hold. cbn [filter app].
      unfold reply, Reply.replyAnn.
      rewrite (proj2 (strictEq_spec _ _) (sets_user _)). reflexivity.
Qed.

End ReplyRoundTrip.

Lemma created_reply_is_read_back_witness :
  let annotation := Sample.annotated ["biology"] in
  let theirs := Sample.replyBy "carol" "r2" ["vote:like"; "user:carol"] in
  let store := Sample.viewedByBob [theirs] in
  let reply :=
    Reply.replyAnn annotation store "2023-11-14T22:13:20.000Z"
                   Sample.neverPrivate Sample.sharedWith Sample.privateTo
                   Sample.fromData Dislike in
  let store' := withLoaded store reply in
  tags reply
  = Some ["vote:dislike"; "user:bob"; "timestamp:2023-11-14T22:13:20.000Z"]
  /\ In reply (Reply.voteReplies annotation store')
  /\ Reply.likeCount annotation store' = 1
  /\ Reply.dislikeCount annotation store' = 1
  /\ Reply.viewerVote annotation store' = VoteDislike.
Proof.
  cbv zeta. split; [reflexivity|].
  destruct (created_reply_is_read_back
              (Sample.annotated ["biology"])
              (Sample.viewedByBob
                 [Sample.replyBy "carol" "r2" ["vote:like"; "user:carol"]])
              "2023-11-14T22:13:20.000Z"
              Sample.neverPrivate Sample.sharedWith Sample.privateTo
              Sample.fromData
              (fun _ => eq_refl) (fun _ => eq_refl) (fun _ => eq_refl)
              Dislike)
    as [Hin [Hl [Hd Hv]]].
  split; [exact Hin|]. split; [exact Hl|]. split; [exact Hd|].
  exact (Hv eq_refl).
Defined.

(** * The body renders vote markers as tags *)

Section BodyAfterVote.

Variables (annotation : Annotation) (store : Store) (now : N).
Variable authorIsThirdParty : bool.
Variable createTagSearchURL : string -> string.

(** X14.  The body does not tell vote markers from other tags: unless the
    click retracts a vote, the annotation it saves renders, when no draft
    is open, a tag list that has one item per saved tag and that holds the
    new marker, linked like any tag. *)
Theorem vote_marker_is_rendered_as_tag (type : VoteType) :
  Inline.alreadyVotedSameType annotation store type = false ->
  let saved := Inline.rerender annotation store now type in
  let marker :=
    Inline.markerFor type (Js.template (Inline.userId store))
                     (Js.numberToString (Inline.timestamp now)) in
  Body.showTagList saved None = Some true
  /\ exists items,
       Body.tagItems saved None authorIsThirdParty createTagSearchURL
       = Some items
       /\ map fst items = Inline.newTags annotation store now type
       /\ In (marker,
              if authorIsThirdParty then None
              else Some (createTagSearchURL marker))
             items.
Proof.
  intros Hfresh saved marker.
  assert (Ht : Inline.newTags annotation store now type
               = (filter (fun t => negb (Inline.matchesViewer
                                           (Js.template (Inline.userId store))
                                           t))
                         (Inline.tags annotation) ++ [marker])%list).
  { change (Inline.newTags annotation store now type)
      with (Inline.tags (Inline.rerender annotation store now type)).
    now rewrite tags_rerender, Hfresh. }
  assert (Hlen : (0 <? List.length
                         (Inline.newTags annotation store now type))%nat
                 = true).
  { rewrite Ht, length_app, Nat.add_comm. reflexivity. }
  unfold Body.showTagList, Body.tagItems, Body.tags, saved, Inline.rerender.
  cbn [tags withTags]. rewrite Hlen. split; [reflexivity|].
  eexists. split; [reflexivity|]. split.
  - rewrite map_map. cbn [fst]. apply map_id.
  - rewrite Ht, map_app. apply in_or_app. right. left.
    now destruct authorIsThirdParty.
Qed.

End BodyAfterVote.

Lemma vote_marker_is_rendered_as_tag_witness :
  let annotation := Sample.annotated [] in
  let store := Sample.viewedByBob [] in
  let saved := Inline.rerender annotation store Sample.clock Like in
  Inline.alreadyVotedSameType annotation store Like = false
  /\ Body.showTagList annotation None = Some false
  /\ Body.showTagList saved None = Some true
  /\ exists items,
       Body.tagItems saved None false (fun tag => "/search?q=tag:" ++ tag)
       = Some items
       /\ map fst items
          = Inline.newTags annotation store Sample.clock Like
       /\ In ("vote:like:bob:1700000000",
              Some "/search?q=tag:vote:like:bob:1700000000")
             items.
Proof.
  cbv zeta. split; [reflexivity|]. split; [reflexivity|].
  exact (vote_marker_is_rendered_as_tag
           (Sample.annotated []) (Sample.viewedByBob []) Sample.clock
           false (fun tag => "/search?q=tag:" ++ tag) Like eq_refl).
Defined.

(** * A viewer without an id in the reply scheme *)

(** X15.  Whatever annotations are loaded, a viewer whose [userid] is
    [null] has no vote reply: no button is pressed, and a click of theirs
    never deletes anything. *)
Theorem viewer_without_id_has_no_vote (annotation : Annotation)
    (store : Store) (isoNow : string)
    (deleteResult saveResult : Annotation -> ServiceResult)
    (isPrivate : Permissions -> bool)
    (sharedPermissions : option string -> string -> Permissions)
    (privatePermissions : option string -> Permissions)
    (annotationFromData : AnnotationData -> Annotation) (type : VoteType) :
  profile_userid store = None ->
  Reply.myExistingVote annotation store = None
  /\ Reply.viewerVote annotation store = VoteNone
  /\ deletes (trace (Reply.onVote annotation store isoNow deleteResult
                       saveResult isPrivate sharedPermissions
                       privatePermissions annotationFromData type)) = [].
Proof.
  intros Hnull.
  assert (Hnone : Reply.myExistingVote annotation store = None).
  { unfold Reply.myExistingVote, Reply.userid. rewrite Hnull.
    induction (Reply.voteReplies annotation store) as [|r l IH];
      [reflexivity | exact IH]. }
  split; [exact Hnone|]. split.
  - unfold Reply.viewerVote, Reply.myVoteType. now rewrite Hnone.
  - destruct (isLoggedIn store) eqn:Hin.
    + rewrite (onVote_run _ _ _ _ _ _ _ _ _ type Hin), Hnone.
      now destruct (saveResult _).
    + now rewrite (onVote_logged_out _ _ _ _ _ _ _ _ _ type Hin).
Qed.

Lemma viewer_without_id_has_no_vote_witness :
  let annotation := Sample.annotated ["biology"] in
  let theirs := Sample.replyBy "carol" "r2" ["vote:like"; "user:carol"] in
  let store :=
    {| profile_userid := None; isLoggedIn := false;
       allAnnotations := Some [theirs]; annotations := None |} in
  Reply.likeCount annotation store = 1
  /\ Reply.myExistingVote annotation store = None
  /\ Reply.viewerVote annotation store = VoteNone
  /\ deletes (trace (Reply.onVote annotation store
                       "2023-11-14T22:13:20.000Z"
                       Sample.succeeds Sample.succeeds Sample.neverPrivate
                       Sample.sharedWith Sample.privateTo Sample.fromData
                       Like)) = [].
Proof.
  cbv zeta. split; [reflexivity|].
  exact (viewer_without_id_has_no_vote
           (Sample.annotated ["biology"])
           {| profile_userid := None; isLoggedIn := false;
              allAnnotations :=
                Some [Sample.replyBy "carol" "r2" ["vote:like"; "user:carol"]];
              annotations := None |}
           "2023-11-14T22:13:20.000Z"
           Sample.succeeds Sample.succeeds Sample.neverPrivate
           Sample.sharedWith Sample.privateTo Sample.fromData Like eq_refl).
Defined.
